(** * DeltaLux: the offset light group, embedded and verified

    A shallow embedding of [light.py] (the group controller: set-up,
    restore, brightness mapping, turn-on, turn-off, passive
    resynchronization) and, of [config_flow.py], of the YAML import/export
    pair and of the saving of a changed selection of lights, followed by
    the properties that the specification states about them and by further
    properties of the same code.

    Conventions.
    - A Python [int] is a [Z]; a Python [float] is a binary64 value, taken
      from Rocq's primitive floats, so an arithmetic step on floats rounds
      as CPython's does; for the conversion of an [int], see
      [Py.float_of_int] and [Py.truediv].
    - A [dict] with string keys is a [gmap string _]; the one dict whose
      iteration order the code depends on ([_entities_config]) is an
      association list in insertion order.
    - Code that can raise returns an [outcome]; the two [async] operations
      run in a small state monad over the entity and the history of what it
      did to its surroundings. *)

From Stdlib Require Import ZArith QArith Qround Floats List String Ascii Lia.
From Stdlib Require Import DecimalString DecimalZ DecimalPos DecimalFacts.
From stdpp Require Import base option list strings gmap.

Local Open Scope Z_scope.

(** ** const.py *)
Module Const.

Definition DOMAIN : string := "deltalux".

Definition CONF_GROUP_NAME : string := "group_name".
Definition CONF_LIGHTS : string := "lights".
Definition CONF_ENTITY_ID : string := "entity_id".
Definition CONF_OFFSET : string := "offset".
Definition CONF_OFFSET_TYPE : string := "offset_type".
Definition CONF_MIN_BRIGHTNESS : string := "min_brightness".
Definition CONF_MAX_BRIGHTNESS : string := "max_brightness".

Definition OFFSET_TYPE_ABSOLUTE : string := "absolute".
Definition OFFSET_TYPE_RELATIVE : string := "relative".

Definition DEFAULT_OFFSET : Z := 0.
Definition DEFAULT_OFFSET_TYPE : string := OFFSET_TYPE_ABSOLUTE.
Definition DEFAULT_MIN_BRIGHTNESS : Z := 1.
Definition DEFAULT_MAX_BRIGHTNESS : Z := 100.

Definition ATTR_MASTER_BRIGHTNESS : string := "master_brightness".
Definition ATTR_OFFSETS : string := "offsets".

End Const.

(** ** Names imported from the host ([homeassistant.const] and
    [homeassistant.components.light]); their values are the host's. *)
Module Host.

Definition ATTR_BRIGHTNESS : string := "brightness".
Definition ATTR_COLOR_MODE : string := "color_mode".
Definition ATTR_COLOR_TEMP : string := "color_temp".
Definition ATTR_HS_COLOR : string := "hs_color".
Definition ATTR_RGB_COLOR : string := "rgb_color".
Definition ATTR_RGBW_COLOR : string := "rgbw_color".
Definition ATTR_RGBWW_COLOR : string := "rgbww_color".
Definition ATTR_SUPPORTED_COLOR_MODES : string := "supported_color_modes".
Definition ATTR_TRANSITION : string := "transition".
Definition ATTR_XY_COLOR : string := "xy_color".
Definition ATTR_ENTITY_ID : string := "entity_id".
Definition CONF_NAME : string := "name".
Definition SERVICE_TURN_OFF : string := "turn_off".
Definition SERVICE_TURN_ON : string := "turn_on".
Definition STATE_ON : string := "on".
Definition STATE_UNAVAILABLE : string := "unavailable".
Definition STATE_UNKNOWN : string := "unknown".

(** The host's [ColorMode] string enumeration. *)
Inductive ColorMode :=
| UNKNOWN | ONOFF | BRIGHTNESS | COLOR_TEMP | HS | XY | RGB | RGBW | RGBWW | WHITE.

Definition ColorMode_value (c : ColorMode) : string :=
  match c with
  | UNKNOWN => "unknown" | ONOFF => "onoff" | BRIGHTNESS => "brightness"
  | COLOR_TEMP => "color_temp" | HS => "hs" | XY => "xy" | RGB => "rgb"
  | RGBW => "rgbw" | RGBWW => "rgbww" | WHITE => "white"
  end.

Definition ColorMode_members : list ColorMode :=
  [UNKNOWN; ONOFF; BRIGHTNESS; COLOR_TEMP; HS; XY; RGB; RGBW; RGBWW; WHITE].

(** [ColorMode(value)]: the member with that value; [None] stands for the
    [ValueError] the enum raises on any other value. *)
Definition ColorMode_of_value (s : string) : option ColorMode :=
  find (λ c, bool_decide (ColorMode_value c = s)) ColorMode_members.

Definition ColorMode_index (c : ColorMode) : nat :=
  match c with
  | UNKNOWN => 0 | ONOFF => 1 | BRIGHTNESS => 2 | COLOR_TEMP => 3 | HS => 4
  | XY => 5 | RGB => 6 | RGBW => 7 | RGBWW => 8 | WHITE => 9
  end%nat.

#[global] Instance ColorMode_eq_dec : EqDecision ColorMode.
Proof. solve_decision. Defined.

#[global] Instance ColorMode_countable : Countable ColorMode.
Proof.
  refine (inj_countable' ColorMode_index
            (λ n, nth n ColorMode_members UNKNOWN) _).
  intros []; reflexivity.
Defined.

End Host.

(** ** Python values and arithmetic *)
Module Py.

(** Values whose type the code does not fix: colour payloads, the
    transition time, what is put into a service call, what a YAML document
    loads to. A dict keeps its insertion order. *)
#[warnings="-register-all"]
Inductive pyval :=
| PyNone
| PyBool (b : bool)
| PyInt (z : Z)
| PyFloat (f : float)
| PyStr (s : string)
| PyTuple (items : list pyval)
| PyList (items : list pyval)
| PyDict (entries : list (string * pyval)).

Inductive exn :=
| OverflowError
| ValueError
| AttributeError
| HostError (info : string).

(** [d.get(key)] on an insertion-ordered dict. *)
Fixpoint dict_get {V : Type} (key : string) (d : list (string * V)) : option V :=
  match d with
  | [] => None
  | (k, v) :: rest => if decide (k = key) then Some v else dict_get key rest
  end.

(** [d[key] = value]: a present key keeps its place. *)
Fixpoint dict_set {V : Type} (key : string) (value : V)
    (d : list (string * V)) : list (string * V) :=
  match d with
  | [] => [(key, value)]
  | (k, v) :: rest =>
      if decide (k = key) then (k, value) :: rest
      else (k, v) :: dict_set key value rest
  end.

(** [str(z)] for an int. *)
Definition str_int (z : Z) : string := NilZero.string_of_int (Z.to_int z).

(** What evaluating a piece of code ends in. *)
Inductive outcome (A : Type) :=
| Returns (a : A)
| Raises (e : exn).
Arguments Returns {A} a.
Arguments Raises {A} e.

#[global] Instance outcome_ret : MRet outcome := λ A a, Returns a.
#[global] Instance outcome_bind : MBind outcome :=
  λ A B f m, match m with Returns a => f a | Raises e => Raises e end.

(** [float(z)] for an int operand of mixed arithmetic: the nearest binary64
    value, ties to even (exact whenever |z| <= 2^53). An int beyond the
    range of binary64 denotes an infinity here, where CPython raises
    [OverflowError] at the conversion; the values of the mapping stated
    below are for a master brightness in 0..255, an offset in -100..100 and
    percentages in 1..100, far inside the range. *)
Definition float_of_int (z : Z) : float :=
  SF2Prim (binary_normalize prec emax z 0 false).

(** [a / b] on two ints (true division), for a divisor other than zero; the
    controller divides by the literals 255 and 100 only. For operands of
    magnitude up to 2^53 CPython's result is the binary64 quotient of the
    two converted operands, which is what this gives; beyond 2^53 CPython
    rounds the exact quotient once, and this is not that value. *)
Definition truediv (a b : Z) : float :=
  PrimFloat.div (float_of_int a) (float_of_int b).

(** [int(f)]: truncation toward zero; raises on an infinity or a NaN. *)
Definition int_of_float (f : float) : outcome Z :=
  match Prim2SF f with
  | S754_zero _ => Returns 0
  | S754_finite s m e =>
      let magnitude :=
        match e with
        | Z0 => Zpos m
        | Zpos p => Zpos m * 2 ^ Zpos p
        | Zneg p => Zpos m / 2 ^ Zpos p
        end in
      Returns (if s then - magnitude else magnitude)
  | S754_infinity _ => Raises OverflowError
  | S754_nan => Raises ValueError
  end.

End Py.

(** ** light.py *)
Module Light.
Import Const Host Py.

(** A member light's state object in the host's state machine. The
    attributes are the ones the light platform publishes, with the types it
    gives them; [None] is a missing (or [None]-valued) attribute, which is
    what [attributes.get] returns for it. *)
Record Attributes := {
  attr_brightness : option Z;
  attr_color_mode : option string;
  attr_supported_color_modes : option (list string);
  attr_supported_features : option N;
  attr_hs_color : option pyval;
  attr_color_temp : option pyval;
  attr_rgb_color : option pyval;
  attr_rgbw_color : option pyval;
  attr_rgbww_color : option pyval;
  attr_xy_color : option pyval;
}.

Record State := {
  state : string;
  attributes : Attributes;
}.

(** Keyword arguments of a turn-on or turn-off call. [kw_brightness] is
    the value under the key [ATTR_BRIGHTNESS] when it is present: an int,
    as the annotation of [_master_brightness], where it is stored, says.
    [kw] holds the other keys, which are only tested for presence and
    copied. *)
Record Kwargs := {
  kw_brightness : option Z;
  kw : gmap string pyval;
}.

(** The entity. [_entities_config] is the dict entity_id -> config in its
    insertion order; a member's config is the dict of its three settings. *)
Record OffsetLightGroup := {
  _attr_unique_id : string;
  _attr_name : string;
  _entities_config : list (string * gmap string Z);
  _offset_type : string;
  _is_on : bool;
  _master_brightness : Z;
  _brightness : Z;
  _color_mode : option ColorMode;
  _hs_color : pyval;
  _color_temp : pyval;
  _rgb_color : pyval;
  _rgbw_color : pyval;
  _rgbww_color : pyval;
  _xy_color : pyval;
  _supported_color_modes : gset ColorMode;
  _supported_features : N;
  _applying_state : bool;
}.

(** [OffsetLightGroup.__init__] *)
Definition __init__ (unique_id name : string)
    (entities_config : list (string * gmap string Z)) (offset_type : string)
    : OffsetLightGroup :=
  {| _attr_unique_id := unique_id;
     _attr_name := name;
     _entities_config := entities_config;
     _offset_type := offset_type;
     _is_on := false;
     _master_brightness := 128;
     _brightness := 128;
     _color_mode := None;
     _hs_color := PyNone;
     _color_temp := PyNone;
     _rgb_color := PyNone;
     _rgbw_color := PyNone;
     _rgbww_color := PyNone;
     _xy_color := PyNone;
     _supported_color_modes := ∅;
     _supported_features := 0%N;
     _applying_state := false |}.

(** The keys in iteration order: [for entity_id in self._entities_config]. *)
Definition entity_ids (self : OffsetLightGroup) : list string :=
  (_entities_config self).*1.

(** The [brightness] property. *)
Definition brightness (self : OffsetLightGroup) : option Z :=
  if _is_on self then Some (_master_brightness self) else None.

(** The [supported_color_modes] property. *)
Definition supported_color_modes (self : OffsetLightGroup) : gset ColorMode :=
  if decide (_supported_color_modes self = ∅) then {[BRIGHTNESS]}
  else _supported_color_modes self.

(** [_calculate_light_brightness] *)
Definition _calculate_light_brightness (self : OffsetLightGroup)
    (entity_id : string) (master_brightness : Z) : outcome Z :=
  let config := default ∅ (dict_get entity_id (_entities_config self)) in
  let offset := default DEFAULT_OFFSET (config !! CONF_OFFSET) in
  let min_brightness_pct :=
    default DEFAULT_MIN_BRIGHTNESS (config !! CONF_MIN_BRIGHTNESS) in
  let max_brightness_pct :=
    default DEFAULT_MAX_BRIGHTNESS (config !! CONF_MAX_BRIGHTNESS) in
  min_brightness ←
    int_of_float (truediv min_brightness_pct 100 * float_of_int 255)%float;
  max_brightness ←
    int_of_float (truediv max_brightness_pct 100 * float_of_int 255)%float;
  target ←
    (if decide (_offset_type self = OFFSET_TYPE_RELATIVE) then
       let multiplier := truediv (100 + offset) 100 in
       int_of_float (float_of_int master_brightness * multiplier)%float
     else
       let master_pct :=
         (truediv master_brightness 255 * float_of_int 100)%float in
       let target_pct := (master_pct + float_of_int offset)%float in
       int_of_float (target_pct / float_of_int 100 * float_of_int 255)%float);
  Returns (Z.max min_brightness (Z.min max_brightness target)).

(** Assignments to the attributes that change after construction:
    [set_x v self] is [self.x = v]. *)
Definition set_is_on (v : bool)
    (self : OffsetLightGroup) : OffsetLightGroup :=
  {| _attr_unique_id := _attr_unique_id self; _attr_name := _attr_name self;
     _entities_config := _entities_config self;
     _offset_type := _offset_type self; _is_on := v;
     _master_brightness := _master_brightness self;
     _brightness := _brightness self; _color_mode := _color_mode self;
     _hs_color := _hs_color self; _color_temp := _color_temp self;
     _rgb_color := _rgb_color self; _rgbw_color := _rgbw_color self;
     _rgbww_color := _rgbww_color self; _xy_color := _xy_color self;
     _supported_color_modes := _supported_color_modes self;
     _supported_features := _supported_features self;
     _applying_state := _applying_state self |}.

Definition set_master_brightness (v : Z)
    (self : OffsetLightGroup) : OffsetLightGroup :=
  {| _attr_unique_id := _attr_unique_id self; _attr_name := _attr_name self;
     _entities_config := _entities_config self;
     _offset_type := _offset_type self; _is_on := _is_on self;
     _master_brightness := v; _brightness := _brightness self;
     _color_mode := _color_mode self; _hs_color := _hs_color self;
     _color_temp := _color_temp self; _rgb_color := _rgb_color self;
     _rgbw_color := _rgbw_color self; _rgbww_color := _rgbww_color self;
     _xy_color := _xy_color self;
     _supported_color_modes := _supported_color_modes self;
     _supported_features := _supported_features self;
     _applying_state := _applying_state self |}.

Definition set_color_mode (v : option ColorMode)
    (self : OffsetLightGroup) : OffsetLightGroup :=
  {| _attr_unique_id := _attr_unique_id self; _attr_name := _attr_name self;
     _entities_config := _entities_config self;
     _offset_type := _offset_type self; _is_on := _is_on self;
     _master_brightness := _master_brightness self;
     _brightness := _brightness self; _color_mode := v;
     _hs_color := _hs_color self; _color_temp := _color_temp self;
     _rgb_color := _rgb_color self; _rgbw_color := _rgbw_color self;
     _rgbww_color := _rgbww_color self; _xy_color := _xy_color self;
     _supported_color_modes := _supported_color_modes self;
     _supported_features := _supported_features self;
     _applying_state := _applying_state self |}.

Definition set_hs_color (v : pyval)
    (self : OffsetLightGroup) : OffsetLightGroup :=
  {| _attr_unique_id := _attr_unique_id self; _attr_name := _attr_name self;
     _entities_config := _entities_config self;
     _offset_type := _offset_type self; _is_on := _is_on self;
     _master_brightness := _master_brightness self;
     _brightness := _brightness self; _color_mode := _color_mode self;
     _hs_color := v; _color_temp := _color_temp self;
     _rgb_color := _rgb_color self; _rgbw_color := _rgbw_color self;
     _rgbww_color := _rgbww_color self; _xy_color := _xy_color self;
     _supported_color_modes := _supported_color_modes self;
     _supported_features := _supported_features self;
     _applying_state := _applying_state self |}.

Definition set_color_temp (v : pyval)
    (self : OffsetLightGroup) : OffsetLightGroup :=
  {| _attr_unique_id := _attr_unique_id self; _attr_name := _attr_name self;
     _entities_config := _entities_config self;
     _offset_type := _offset_type self; _is_on := _is_on self;
     _master_brightness := _master_brightness self;
     _brightness := _brightness self; _color_mode := _color_mode self;
     _hs_color := _hs_color self; _color_temp := v;
     _rgb_color := _rgb_color self; _rgbw_color := _rgbw_color self;
     _rgbww_color := _rgbww_color self; _xy_color := _xy_color self;
     _supported_color_modes := _supported_color_modes self;
     _supported_features := _supported_features self;
     _applying_state := _applying_state self |}.

Definition set_rgb_color (v : pyval)
    (self : OffsetLightGroup) : OffsetLightGroup :=
  {| _attr_unique_id := _attr_unique_id self; _attr_name := _attr_name self;
     _entities_config := _entities_config self;
     _offset_type := _offset_type self; _is_on := _is_on self;
     _master_brightness := _master_brightness self;
     _brightness := _brightness self; _color_mode := _color_mode self;
     _hs_color := _hs_color self; _color_temp := _color_temp self;
     _rgb_color := v; _rgbw_color := _rgbw_color self;
     _rgbww_color := _rgbww_color self; _xy_color := _xy_color self;
     _supported_color_modes := _supported_color_modes self;
     _supported_features := _supported_features self;
     _applying_state := _applying_state self |}.

Definition set_rgbw_color (v : pyval)
    (self : OffsetLightGroup) : OffsetLightGroup :=
  {| _attr_unique_id := _attr_unique_id self; _attr_name := _attr_name self;
     _entities_config := _entities_config self;
     _offset_type := _offset_type self; _is_on := _is_on self;
     _master_brightness := _master_brightness self;
     _brightness := _brightness self; _color_mode := _color_mode self;
     _hs_color := _hs_color self; _color_temp := _color_temp self;
     _rgb_color := _rgb_color self; _rgbw_color := v;
     _rgbww_color := _rgbww_color self; _xy_color := _xy_color self;
     _supported_color_modes := _supported_color_modes self;
     _supported_features := _supported_features self;
     _applying_state := _applying_state self |}.

Definition set_rgbww_color (v : pyval)
    (self : OffsetLightGroup) : OffsetLightGroup :=
  {| _attr_unique_id := _attr_unique_id self; _attr_name := _attr_name self;
     _entities_config := _entities_config self;
     _offset_type := _offset_type self; _is_on := _is_on self;
     _master_brightness := _master_brightness self;
     _brightness := _brightness self; _color_mode := _color_mode self;
     _hs_color := _hs_color self; _color_temp := _color_temp self;
     _rgb_color := _rgb_color self; _rgbw_color := _rgbw_color self;
     _rgbww_color := v; _xy_color := _xy_color self;
     _supported_color_modes := _supported_color_modes self;
     _supported_features := _supported_features self;
     _applying_state := _applying_state self |}.

Definition set_xy_color (v : pyval)
    (self : OffsetLightGroup) : OffsetLightGroup :=
  {| _attr_unique_id := _attr_unique_id self; _attr_name := _attr_name self;
     _entities_config := _entities_config self;
     _offset_type := _offset_type self; _is_on := _is_on self;
     _master_brightness := _master_brightness self;
     _brightness := _brightness self; _color_mode := _color_mode self;
     _hs_color := _hs_color self; _color_temp := _color_temp self;
     _rgb_color := _rgb_color self; _rgbw_color := _rgbw_color self;
     _rgbww_color := _rgbww_color self; _xy_color := v;
     _supported_color_modes := _supported_color_modes self;
     _supported_features := _supported_features self;
     _applying_state := _applying_state self |}.

Definition set_supported_color_modes (v : gset ColorMode)
    (self : OffsetLightGroup) : OffsetLightGroup :=
  {| _attr_unique_id := _attr_unique_id self; _attr_name := _attr_name self;
     _entities_config := _entities_config self;
     _offset_type := _offset_type self; _is_on := _is_on self;
     _master_brightness := _master_brightness self;
     _brightness := _brightness self; _color_mode := _color_mode self;
     _hs_color := _hs_color self; _color_temp := _color_temp self;
     _rgb_color := _rgb_color self; _rgbw_color := _rgbw_color self;
     _rgbww_color := _rgbww_color self; _xy_color := _xy_color self;
     _supported_color_modes := v;
     _supported_features := _supported_features self;
     _applying_state := _applying_state self |}.

Definition set_supported_features (v : N)
    (self : OffsetLightGroup) : OffsetLightGroup :=
  {| _attr_unique_id := _attr_unique_id self; _attr_name := _attr_name self;
     _entities_config := _entities_config self;
     _offset_type := _offset_type self; _is_on := _is_on self;
     _master_brightness := _master_brightness self;
     _brightness := _brightness self; _color_mode := _color_mode self;
     _hs_color := _hs_color self; _color_temp := _color_temp self;
     _rgb_color := _rgb_color self; _rgbw_color := _rgbw_color self;
     _rgbww_color := _rgbww_color self; _xy_color := _xy_color self;
     _supported_color_modes := _supported_color_modes self;
     _supported_features := v; _applying_state := _applying_state self |}.

Definition set_applying_state (v : bool)
    (self : OffsetLightGroup) : OffsetLightGroup :=
  {| _attr_unique_id := _attr_unique_id self; _attr_name := _attr_name self;
     _entities_config := _entities_config self;
     _offset_type := _offset_type self; _is_on := _is_on self;
     _master_brightness := _master_brightness self;
     _brightness := _brightness self; _color_mode := _color_mode self;
     _hs_color := _hs_color self; _color_temp := _color_temp self;
     _rgb_color := _rgb_color self; _rgbw_color := _rgbw_color self;
     _rgbww_color := _rgbww_color self; _xy_color := _xy_color self;
     _supported_color_modes := _supported_color_modes self;
     _supported_features := _supported_features self;
     _applying_state := v |}.

(** Colour attributes to forward ([COLOR_ATTRS]). *)
Definition COLOR_ATTRS : list string :=
  [ATTR_HS_COLOR; ATTR_COLOR_TEMP; ATTR_RGB_COLOR; ATTR_RGBW_COLOR;
   ATTR_RGBWW_COLOR; ATTR_XY_COLOR].

(** One [if attr in kwargs:] block of [_store_color_from_kwargs]: store the
    payload in its field and set the colour mode. *)
Definition store_if_present (kwargs : Kwargs) (attr : string)
    (set_field : pyval → OffsetLightGroup → OffsetLightGroup)
    (mode : ColorMode) (self : OffsetLightGroup) : OffsetLightGroup :=
  match kw kwargs !! attr with
  | Some payload => set_color_mode (Some mode) (set_field payload self)
  | None => self
  end.

(** [_store_color_from_kwargs] *)
Definition _store_color_from_kwargs (kwargs : Kwargs)
    (self : OffsetLightGroup) : OffsetLightGroup :=
  let self := store_if_present kwargs ATTR_HS_COLOR set_hs_color HS self in
  let self := store_if_present kwargs ATTR_RGB_COLOR set_rgb_color RGB self in
  let self := store_if_present kwargs ATTR_RGBW_COLOR set_rgbw_color RGBW self in
  let self :=
    store_if_present kwargs ATTR_RGBWW_COLOR set_rgbww_color RGBWW self in
  let self := store_if_present kwargs ATTR_XY_COLOR set_xy_color XY self in
  store_if_present kwargs ATTR_COLOR_TEMP set_color_temp COLOR_TEMP self.

(** The locals that the loop of [_update_state_from_members] accumulates. *)
Record Scan := {
  on_states : list string;
  brightness_values : list Z;
  color_modes : gset ColorMode;
  features : N;
}.

Definition scan_start : Scan :=
  {| on_states := []; brightness_values := []; color_modes := ∅;
     features := 0%N |}.

(** One iteration of that loop, for the member [entity_id]. *)
Definition scan_member (states : gmap string State) (acc : Scan)
    (entity_id : string) : Scan :=
  match states !! entity_id with
  | None => acc
  | Some st =>
      if decide (state st = STATE_UNAVAILABLE ∨ state st = STATE_UNKNOWN)
      then acc
      else
        let is_on := bool_decide (state st = STATE_ON) in
        {| on_states :=
             if is_on then on_states acc ++ [entity_id] else on_states acc;
           brightness_values :=
             match attr_brightness (attributes st) with
             | Some b =>
                 if is_on && negb (b =? 0)
                 then brightness_values acc ++ [b]
                 else brightness_values acc
             | None => brightness_values acc
             end;
           color_modes :=
             match attr_supported_color_modes (attributes st) with
             | Some modes =>
                 foldl (λ seen mode,
                          match ColorMode_of_value mode with
                          | Some c => seen ∪ {[c]}
                          | None => seen
                          end)
                       (color_modes acc) modes
             | None => color_modes acc
             end;
           features :=
             match attr_supported_features (attributes st) with
             | Some entity_features =>
                 if (entity_features =? 0)%N then features acc
                 else N.lor (features acc) entity_features
             | None => features acc
             end |}
  end.

(** The assignments made from the first member that is on. *)
Definition copy_color_from (first_on : State)
    (self : OffsetLightGroup) : OffsetLightGroup :=
  let a := attributes first_on in
  let self :=
    set_color_mode
      (match attr_color_mode a with
       | Some cm => if decide (cm = "") then None else ColorMode_of_value cm
       | None => None
       end) self in
  let self := set_hs_color (default PyNone (attr_hs_color a)) self in
  let self := set_color_temp (default PyNone (attr_color_temp a)) self in
  let self := set_rgb_color (default PyNone (attr_rgb_color a)) self in
  let self := set_rgbw_color (default PyNone (attr_rgbw_color a)) self in
  let self := set_rgbww_color (default PyNone (attr_rgbww_color a)) self in
  set_xy_color (default PyNone (attr_xy_color a)) self.

(** [_update_state_from_members], given the host's state machine. *)
Definition _update_state_from_members (states : gmap string State)
    (self : OffsetLightGroup) : OffsetLightGroup :=
  let scan := foldl (scan_member states) scan_start (entity_ids self) in
  let self := set_is_on (bool_decide (0 < length (on_states scan))%nat) self in
  let self :=
    set_supported_color_modes
      (if decide (color_modes scan = ∅) then {[BRIGHTNESS]}
       else color_modes scan) self in
  let self := set_supported_features (features scan) self in
  match on_states scan with
  | [] => self
  | first :: _ =>
      match states !! first with
      | Some first_on => copy_color_from first_on self
      | None => self
      end
  end.

(** *** The operations that talk to the host *)

(** What the entity does that is visible outside a single attribute: an
    assignment to the guard flag, a service call, a publication of its
    state. *)
Inductive event :=
| GuardAssigned (value : bool)
| ServiceCall (domain service : string) (service_data : gmap string pyval)
| StateWritten (published : OffsetLightGroup).

(** The host: whether the external call that ends the given history fails,
    and with what. Any deterministic host is such a function. *)
Definition host : Type := list event → option exn.

Record World := {
  self : OffsetLightGroup;
  history : list event;
}.

Definition M (A : Type) : Type := World → outcome A * World.

#[global] Instance M_ret : MRet M := λ A a w, (Returns a, w).
#[global] Instance M_bind : MBind M :=
  λ A B f m w,
    match m w with
    | (Returns a, w') => f a w'
    | (Raises e, w') => (Raises e, w')
    end.

Definition get_self : M OffsetLightGroup := λ w, (Returns (self w), w).

Definition update (f : OffsetLightGroup → OffsetLightGroup) : M unit :=
  λ w, (Returns (), {| self := f (self w); history := history w |}).

Definition emit (e : event) : M unit :=
  λ w, (Returns (), {| self := self w; history := history w ++ [e] |}).

Definition lift {A : Type} (o : outcome A) : M A := λ w, (o, w).

(** An external call: it enters the history, and the host decides whether
    it raises. *)
Definition external (hass : host) (e : event) : M unit :=
  λ w,
    let h := history w ++ [e] in
    (match hass h with None => Returns () | Some err => Raises err end,
     {| self := self w; history := h |}).

(** [try: body finally: handler] *)
Definition try_finally {A : Type} (body : M A) (handler : M unit) : M A :=
  λ w,
    let '(result, w1) := body w in
    match handler w1 with
    | (Returns _, w2) => (result, w2)
    | (Raises e, w2) => (Raises e, w2)
    end.

(** [for x in xs: body] *)
Fixpoint for_each {A : Type} (xs : list A) (body : A → M unit) : M unit :=
  match xs with
  | [] => mret ()
  | x :: rest => body x;; for_each rest body
  end.

(** [self._applying_state = value] *)
Definition assign_applying_state (value : bool) : M unit :=
  update (set_applying_state value);; emit (GuardAssigned value).

(** [await self.hass.services.async_call(domain, service, data, blocking=True)] *)
Definition async_call (hass : host) (domain service : string)
    (service_data : gmap string pyval) : M unit :=
  external hass (ServiceCall domain service service_data).

(** [self.async_write_ha_state()] *)
Definition async_write_ha_state (hass : host) : M unit :=
  g ← get_self; external hass (StateWritten g).

(** The service data that [async_turn_on] builds for one member. *)
Definition turn_on_service_data (kwargs : Kwargs) (entity_id : string)
    (light_brightness : Z) : gmap string pyval :=
  let service_data : gmap string pyval :=
    {[ATTR_ENTITY_ID := PyStr entity_id]} in
  let service_data :=
    <[ATTR_BRIGHTNESS := PyInt light_brightness]> service_data in
  let service_data :=
    foldl (λ (data : gmap string pyval) attr,
             match kw kwargs !! attr with
             | Some payload => <[attr := payload]> data
             | None => data
             end)
          service_data COLOR_ATTRS in
  match kw kwargs !! ATTR_TRANSITION with
  | Some t => <[ATTR_TRANSITION := t]> service_data
  | None => service_data
  end.

(** The body of the loop of [async_turn_on]: compute the member's
    brightness from the master brightness and dispatch its command. *)
Definition turn_on_member (hass : host) (kwargs : Kwargs)
    (entity_id : string) : M unit :=
  g ← get_self;
  light_brightness ←
    lift (_calculate_light_brightness g entity_id (_master_brightness g));
  async_call hass "light" SERVICE_TURN_ON
    (turn_on_service_data kwargs entity_id light_brightness).

(** [async_turn_on] *)
Definition async_turn_on (hass : host) (kwargs : Kwargs) : M unit :=
  assign_applying_state true;;
  try_finally
    ((match kw_brightness kwargs with
      | Some b => update (set_master_brightness b)
      | None => mret ()
      end);;
     update (_store_color_from_kwargs kwargs);;
     members ← (g ← get_self; mret (entity_ids g));
     for_each members (turn_on_member hass kwargs);;
     update (set_is_on true);;
     async_write_ha_state hass)
    (assign_applying_state false).

(** The service data of [async_turn_off]: one call for all members. *)
Definition turn_off_service_data (kwargs : Kwargs)
    (members : list string) : gmap string pyval :=
  let service_data : gmap string pyval :=
    {[ATTR_ENTITY_ID := PyList (PyStr <$> members)]} in
  match kw kwargs !! ATTR_TRANSITION with
  | Some t => <[ATTR_TRANSITION := t]> service_data
  | None => service_data
  end.

(** [async_turn_off] *)
Definition async_turn_off (hass : host) (kwargs : Kwargs) : M unit :=
  assign_applying_state true;;
  try_finally
    (members ← (g ← get_self; mret (entity_ids g));
     async_call hass "light" SERVICE_TURN_OFF
       (turn_off_service_data kwargs members);;
     update (set_is_on false);;
     async_write_ha_state hass)
    (assign_applying_state false).

(** [async_state_changed_listener], the callback registered for every
    member's state changes. *)
Definition async_state_changed_listener (hass : host)
    (states : gmap string State) : M unit :=
  g ← get_self;
  if _applying_state g then mret ()
  else
    update (_update_state_from_members states);;
    async_write_ha_state hass.

End Light.

(** ** The brightness mapping in the specification's words

    Section 8 of the specification gives the mapping as a formula over
    numbers, with a rounding that section 4.1 fixes ("floor behavior").
    It is written here over the rationals, parameterised by the rounding,
    to be compared with what [_calculate_light_brightness] computes. *)
Module Spec.

Definition clamp (x lo hi : Z) : Z := Z.max lo (Z.min hi x).

(** round(pct/100*255) *)
Definition bound (round : Q → Z) (pct : Z) : Z :=
  round (inject_Z pct / 100 * 255)%Q.

(** round((m/255*100+offset)/100*255) *)
Definition absolute_target (round : Q → Z) (m offset : Z) : Z :=
  round ((inject_Z m / 255 * 100 + inject_Z offset) / 100 * 255)%Q.

(** round(m*(100+offset)/100) *)
Definition relative_target (round : Q → Z) (m offset : Z) : Z :=
  round (inject_Z m * (100 + inject_Z offset) / 100)%Q.

Definition absolute (round : Q → Z) (m offset minPct maxPct : Z) : Z :=
  clamp (absolute_target round m offset) (bound round minPct)
    (bound round maxPct).

Definition relative (round : Q → Z) (m offset minPct maxPct : Z) : Z :=
  clamp (relative_target round m offset) (bound round minPct)
    (bound round maxPct).

(** The other roundings a reader could take "round" for. *)
Definition truncate (q : Q) : Z :=
  if Qle_bool 0 q then Qfloor q else Qceiling q.

Definition half_even (q : Q) : Z :=
  let f := Qfloor q in
  match (q - inject_Z f ?= 1 # 2)%Q with
  | Lt => f
  | Gt => f + 1
  | Eq => if Z.even f then f else f + 1
  end.

End Spec.

(** ** Reading a member's configuration

    The three settings as [_calculate_light_brightness] reads them, with
    its defaults for a missing member or key. *)
Module Member.
Import Const Host Py Light.

Definition config (self : OffsetLightGroup) (entity_id : string)
    : gmap string Z :=
  default ∅ (dict_get entity_id (_entities_config self)).

Definition offset (self : OffsetLightGroup) (entity_id : string) : Z :=
  default DEFAULT_OFFSET (config self entity_id !! CONF_OFFSET).

Definition min_pct (self : OffsetLightGroup) (entity_id : string) : Z :=
  default DEFAULT_MIN_BRIGHTNESS (config self entity_id !! CONF_MIN_BRIGHTNESS).

Definition max_pct (self : OffsetLightGroup) (entity_id : string) : Z :=
  default DEFAULT_MAX_BRIGHTNESS (config self entity_id !! CONF_MAX_BRIGHTNESS).

(** The pieces of the computation, named for the proofs. *)
Definition bound_255 (pct : Z) : outcome Z :=
  int_of_float (truediv pct 100 * float_of_int 255)%float.

Definition absolute_target (m offset : Z) : outcome Z :=
  int_of_float
    ((truediv m 255 * float_of_int 100 + float_of_int offset)
     / float_of_int 100 * float_of_int 255)%float.

Definition relative_target (m offset : Z) : outcome Z :=
  int_of_float (float_of_int m * truediv (100 + offset) 100)%float.

(** A group of one member, for the examples. *)
Definition single (offset_type : string) (offset minPct maxPct : Z)
    : OffsetLightGroup :=
  __init__ "id" "group"
    [("light.a",
      {[CONF_OFFSET := offset; CONF_MIN_BRIGHTNESS := minPct;
        CONF_MAX_BRIGHTNESS := maxPct]})]
    offset_type.

End Member.

(** ** config_flow.py: the YAML form of a configuration *)
Module ConfigFlow.
Import Const Host Py.

(** One entry of [lights] and a group configuration, as the config entry
    stores them: the dicts [{entity_id, offset, min_brightness,
    max_brightness}] and [{name, offset_type, lights}]. *)
Record LightEntry := {
  entity_id : string;
  offset : Z;
  min_brightness : Z;
  max_brightness : Z;
}.

Record GroupConfig := {
  name : string;
  offset_type : string;
  lights : list LightEntry;
}.

(** The same configuration as the dict it is. *)
Definition light_dict (light : LightEntry) : pyval :=
  PyDict [(CONF_ENTITY_ID, PyStr (entity_id light));
          (CONF_OFFSET, PyInt (offset light));
          (CONF_MIN_BRIGHTNESS, PyInt (min_brightness light));
          (CONF_MAX_BRIGHTNESS, PyInt (max_brightness light))].

Definition config_dict (config : GroupConfig) : pyval :=
  PyDict [(CONF_NAME, PyStr (name config));
          (CONF_OFFSET_TYPE, PyStr (offset_type config));
          (CONF_LIGHTS, PyList (light_dict <$> lights config))].

Definition newline : string := String "010"%char EmptyString.

(** [config_to_yaml] *)
Definition config_to_yaml (config : GroupConfig) : string :=
  let lines :=
    ["name: " +:+ name config;
     "offset_type: " +:+ offset_type config;
     "lights:"] in
  let lines :=
    foldl (λ lines light,
             lines ++
             ["  - entity_id: " +:+ entity_id light;
              "    offset: " +:+ str_int (offset light);
              "    min_brightness: " +:+ str_int (min_brightness light);
              "    max_brightness: " +:+ str_int (max_brightness light)])
          lines (lights config) in
  String.concat newline lines.

(** What [yaml.safe_load] ends in: the loaded value, or a [YAMLError]. *)
Inductive load_result :=
| Loaded (parsed : pyval)
| YAMLError (problem : string).

(** [_validate_light_entry], with its pair [(config, error)] as a sum: the
    entry's config or the error message. [startswith] is a method of [str]
    only, so another kind of entity_id raises. *)
Definition _validate_light_entry (light : pyval) (index : nat)
    : outcome (pyval + string) :=
  match light with
  | PyDict entries =>
      match dict_get "entity_id" entries with
      | None =>
          Returns (inr ("Light entry " +:+ str_int (Z.of_nat index + 1)
                        +:+ " missing entity_id"))
      | Some (PyStr entity_id) =>
          if String.prefix "light." entity_id then
            Returns (inl (PyDict
              [(CONF_ENTITY_ID, PyStr entity_id);
               (CONF_OFFSET,
                default (PyInt DEFAULT_OFFSET) (dict_get "offset" entries));
               (CONF_MIN_BRIGHTNESS,
                default (PyInt DEFAULT_MIN_BRIGHTNESS)
                  (dict_get "min_brightness" entries));
               (CONF_MAX_BRIGHTNESS,
                default (PyInt DEFAULT_MAX_BRIGHTNESS)
                  (dict_get "max_brightness" entries))]))
          else
            Returns (inr ("Invalid entity_id: " +:+ entity_id
                          +:+ " (must start with 'light.')"))
      | Some _ => Raises AttributeError
      end
  | _ =>
      Returns (inr ("Light entry " +:+ str_int (Z.of_nat index + 1)
                    +:+ " must be a dictionary"))
  end.

(** The loop of [yaml_to_config] over [enumerate(parsed["lights"])]. *)
Fixpoint validate_lights (lights : list pyval) (index : nat)
    (lights_config : list pyval) : outcome (list pyval + string) :=
  match lights with
  | [] => Returns (inl lights_config)
  | light :: rest =>
      checked ← _validate_light_entry light index;
      match checked with
      | inr error => Returns (inr error)
      | inl light_config =>
          validate_lights rest (S index) (lights_config ++ [light_config])
      end
  end.

(** [yaml_to_config] from the point where [yaml.safe_load] has answered. *)
Definition yaml_to_config_loaded (loaded : load_result)
    : outcome (pyval + string) :=
  match loaded with
  | YAMLError problem => Returns (inr ("Invalid YAML syntax: " +:+ problem))
  | Loaded (PyDict parsed) =>
      match dict_get "name" parsed with
      | None => Returns (inr "Missing required field: name")
      | Some parsed_name =>
          match dict_get "lights" parsed with
          | None => Returns (inr "Missing required field: lights")
          | Some (PyList parsed_lights) =>
              if (length parsed_lights <? 2)%nat
              then Returns (inr "At least 2 lights are required")
              else
                checked ← validate_lights parsed_lights 0 [];
                match checked with
                | inr error => Returns (inr error)
                | inl lights_config =>
                    Returns (inl (PyDict
                      [(CONF_NAME, parsed_name);
                       (CONF_OFFSET_TYPE,
                        default (PyStr DEFAULT_OFFSET_TYPE)
                          (dict_get "offset_type" parsed));
                       (CONF_LIGHTS, PyList lights_config)]))
                end
          | Some _ => Returns (inr "lights must be a list")
          end
      end
  | Loaded _ => Returns (inr "YAML must be a dictionary/mapping")
  end.

(** *** The YAML loader

    [yaml.safe_load] is PyYAML's, not this repository's. It is modelled for
    the documents [config_to_yaml] writes: a block mapping of
    [key: scalar] lines in which a [key:] line can be followed by a block
    sequence of mappings, indented as [config_to_yaml] indents them, all
    scalars plain. A plain scalar loads by PyYAML's implicit resolvers
    (YAML 1.1): the null and boolean words, an integer, otherwise a string.
    Whatever lies outside this fragment (other indicators, quoting,
    comments, other number forms, ...) is not modelled and loads to
    [None] here. *)

Definition null_words : list string := [""; "~"; "null"; "Null"; "NULL"].

Definition true_words : list string :=
  ["yes"; "Yes"; "YES"; "true"; "True"; "TRUE"; "on"; "On"; "ON"].

Definition false_words : list string :=
  ["no"; "No"; "NO"; "false"; "False"; "FALSE"; "off"; "Off"; "OFF"].

Definition is_word (words : list string) (s : string) : bool :=
  existsb (String.eqb s) words.

Definition is_letter (c : ascii) : bool :=
  let n := nat_of_ascii c in
  ((65 <=? n) && (n <=? 90) || (97 <=? n) && (n <=? 122))%nat.

Definition is_digit (c : ascii) : bool :=
  let n := nat_of_ascii c in ((48 <=? n) && (n <=? 57))%nat.

(** Characters that never start or end anything inside a plain scalar:
    letters, digits, [_], [.], [-] and the space. *)
Definition is_plain_char (c : ascii) : bool :=
  is_letter c || is_digit c
  || Ascii.eqb c "_" || Ascii.eqb c "." || Ascii.eqb c "-" || Ascii.eqb c " ".

Fixpoint all_chars (p : ascii → bool) (s : string) : bool :=
  match s with
  | EmptyString => true
  | String c rest => p c && all_chars p rest
  end.

Fixpoint last_char (s : string) : option ascii :=
  match s with
  | EmptyString => None
  | String c EmptyString => Some c
  | String _ rest => last_char rest
  end.

(** A scalar that can only load as itself: it starts with a letter (no
    number, no indicator), is made of plain characters, does not end in a
    space, and is none of the null and boolean words. *)
Definition loads_as_string (s : string) : bool :=
  match s with
  | EmptyString => false
  | String c _ =>
      is_letter c && all_chars is_plain_char s
      && negb (match last_char s with Some l => Ascii.eqb l " " | None => true end)
      && negb (is_word null_words s || is_word true_words s
               || is_word false_words s)
  end.

(** A decimal integer in the form [str] gives one. *)
Definition decimal (s : string) : option Z :=
  match NilZero.int_of_string s with
  | Some d =>
      let z := Z.of_int d in
      if String.eqb (str_int z) s then Some z else None
  | None => None
  end.

(** The value a plain scalar loads to. *)
Definition resolve_plain (s : string) : option pyval :=
  if is_word null_words s then Some PyNone
  else if is_word true_words s then Some (PyBool true)
  else if is_word false_words s then Some (PyBool false)
  else match decimal s with
       | Some z => Some (PyInt z)
       | None => if loads_as_string s then Some (PyStr s) else None
       end.

(** [s.split(c)] *)
Fixpoint split_on (c : ascii) (s : string) : list string :=
  match s with
  | EmptyString => [EmptyString]
  | String a rest =>
      if Ascii.eqb a c then EmptyString :: split_on c rest
      else match split_on c rest with
           | piece :: pieces => String a piece :: pieces
           | [] => [String a EmptyString]
           end
  end.

(** The text before the first colon and the text after it. *)
Fixpoint cut_at_colon (s : string) : option (string * string) :=
  match s with
  | EmptyString => None
  | String a rest =>
      if Ascii.eqb a ":" then Some (EmptyString, rest)
      else match cut_at_colon rest with
           | Some (key, value) => Some (String a key, value)
           | None => None
           end
  end.

Definition drop_chars (n : nat) (s : string) : string :=
  String.substring n (String.length s - n) s.

(** One [key: scalar] entry: a key that loads as a string, then either
    nothing (a null value) or one space and a plain scalar. *)
Definition load_entry (text : string) : option (string * pyval) :=
  match cut_at_colon text with
  | Some (key, rest) =>
      if loads_as_string key then
        match rest with
        | EmptyString => Some (key, PyNone)
        | String " " scalar =>
            match resolve_plain scalar with
            | Some value => Some (key, value)
            | None => None
            end
        | _ => None
        end
      else None
  | None => None
  end.

(** The loader reads line by line. It holds the top-level mapping read so
    far and, after a [key:] line, the key whose value is being read with
    the items of its sequence so far. *)
Record Loader := {
  top : list (string * pyval);
  pending : option (string * list (list (string * pyval)));
}.

(** Close the value being read: no item is a null, items are a list. *)
Definition close_pending (st : Loader) : list (string * pyval) :=
  match pending st with
  | None => top st
  | Some (key, []) => dict_set key PyNone (top st)
  | Some (key, items) => dict_set key (PyList (PyDict <$> items)) (top st)
  end.

Definition add_to_last (entry : string * pyval)
    (items : list (list (string * pyval)))
    : option (list (list (string * pyval))) :=
  match reverse items with
  | [] => None
  | item :: before =>
      Some (reverse before ++ [dict_set entry.1 entry.2 item])
  end.

Definition load_line (state : option Loader) (line : string)
    : option Loader :=
  st ← state;
  if String.prefix "  - " line then
    '(key, items) ← pending st;
    entry ← load_entry (drop_chars 4 line);
    Some {| top := top st; pending := Some (key, items ++ [[entry]]) |}
  else if String.prefix "    " line then
    '(key, items) ← pending st;
    entry ← load_entry (drop_chars 4 line);
    items' ← add_to_last entry items;
    Some {| top := top st; pending := Some (key, items') |}
  else if String.prefix " " line then None
  else
    '(key, rest) ← cut_at_colon line;
    if loads_as_string key then
      match rest with
      | EmptyString =>
          Some {| top := close_pending st; pending := Some (key, []) |}
      | _ =>
          entry ← load_entry line;
          Some {| top := dict_set entry.1 entry.2 (close_pending st);
                  pending := None |}
      end
    else None.

(** [yaml.safe_load] on the modelled fragment; [None] outside it. *)
Definition safe_load (yaml_string : string) : option load_result :=
  st ← foldl load_line (Some {| top := []; pending := None |})
         (split_on "010"%char yaml_string);
  Some (Loaded (PyDict (close_pending st))).

(** [yaml_to_config]; [None] when the string is outside the fragment of
    YAML that is modelled. *)
Definition yaml_to_config (yaml_string : string)
    : option (outcome (pyval + string)) :=
  yaml_to_config_loaded <$> safe_load yaml_string.

(** *** Describing the text [config_to_yaml] writes *)

(** A character other than the line feed. *)
Definition not_newline (c : ascii) : bool := negb (Ascii.eqb c "010").

(** The lines [config_to_yaml] writes for one light, and the mapping
    they stand for. *)
Definition light_lines (light : LightEntry) : list string :=
  ["  - entity_id: " +:+ entity_id light;
   "    offset: " +:+ str_int (offset light);
   "    min_brightness: " +:+ str_int (min_brightness light);
   "    max_brightness: " +:+ str_int (max_brightness light)].

Definition light_entries (light : LightEntry) : list (string * pyval) :=
  [(CONF_ENTITY_ID, PyStr (entity_id light));
   (CONF_OFFSET, PyInt (offset light));
   (CONF_MIN_BRIGHTNESS, PyInt (min_brightness light));
   (CONF_MAX_BRIGHTNESS, PyInt (max_brightness light))].

(** All the lines of a configuration. *)
Definition config_lines (config : GroupConfig) : list string :=
  ["name: " +:+ name config; "offset_type: " +:+ offset_type config;
   "lights:"] ++ flat_map light_lines (lights config).

(** A configuration whose strings are scalars that load as themselves:
    the name, the offset type and the entity ids, which also carry the
    prefix [yaml_to_config] asks for; and at least two lights. *)
Definition plain_config (config : GroupConfig) : Prop :=
  loads_as_string (name config) = true ∧
  loads_as_string (offset_type config) = true ∧
  (2 ≤ length (lights config))%nat ∧
  Forall (λ l, loads_as_string (entity_id l) = true ∧
               String.prefix "light." (entity_id l) = true) (lights config).

(** A configuration of two lights under the given name, for the
    examples. *)
Definition named (group_name : string) : GroupConfig :=
  {| name := group_name;
     offset_type := OFFSET_TYPE_ABSOLUTE;
     lights :=
       [{| entity_id := "light.sofa"; offset := -25;
           min_brightness := 1; max_brightness := 100 |};
        {| entity_id := "light.desk_2"; offset := 10;
           min_brightness := 5; max_brightness := 90 |}] |}.

End ConfigFlow.

(** ** Describing a run of turn-on and turn-off *)
Module Run.
Import Const Host Py Light.

(** The entity once [async_turn_on] has taken its keyword arguments in. *)
Definition taken_in (kwargs : Kwargs) (g : OffsetLightGroup) : OffsetLightGroup :=
  _store_color_from_kwargs kwargs
    (match kw_brightness kwargs with
     | Some b => set_master_brightness b (set_applying_state true g)
     | None => set_applying_state true g
     end).

(** [call] is the command for the member [entity_id], computed from the
    master brightness [master]. *)
Definition member_command (kwargs : Kwargs) (g : OffsetLightGroup) (master : Z)
    (entity_id : string) (call : event) : Prop :=
  ∃ b, _calculate_light_brightness g entity_id master = Returns b ∧
       call = ServiceCall "light" SERVICE_TURN_ON
                (turn_on_service_data kwargs entity_id b).

(** The keyword arguments a member command forwards verbatim: the colour
    payloads of [COLOR_ATTRS] and the transition. *)
Definition forwarded : list string :=
  [ATTR_HS_COLOR; ATTR_COLOR_TEMP; ATTR_RGB_COLOR; ATTR_RGBW_COLOR;
   ATTR_RGBWW_COLOR; ATTR_XY_COLOR; ATTR_TRANSITION].

(** [call] is the turn-on command of the member [entity_id] for the master
    brightness [master]: a call of the service [light.turn_on] whose data
    name the member under [ATTR_ENTITY_ID], carry the mapping of [master]
    under [ATTR_BRIGHTNESS], forward the colour payload and the transition
    of the keyword arguments, and hold nothing else. *)
Definition command_from_master (kwargs : Kwargs) (g : OffsetLightGroup)
    (master : Z) (entity_id : string) (call : event) : Prop :=
  ∃ b data,
    _calculate_light_brightness g entity_id master = Returns b ∧
    call = ServiceCall "light" SERVICE_TURN_ON data ∧
    data !! ATTR_ENTITY_ID = Some (PyStr entity_id) ∧
    data !! ATTR_BRIGHTNESS = Some (PyInt b) ∧
    ∀ key, key ≠ ATTR_ENTITY_ID → key ≠ ATTR_BRIGHTNESS →
      data !! key = if decide (key ∈ forwarded) then kw kwargs !! key else None.

(** The service calls among some events. *)
Definition is_service_call (e : event) : bool :=
  match e with ServiceCall _ _ _ => true | _ => false end.

Definition service_calls (h : list event) : list event :=
  List.filter is_service_call h.

(** The events of one operation, from the history [before] it to the
    history [after] it, are scoped by the guard flag: the first is the
    assignment of [True], the last the assignment of [False], the flag is
    not assigned in between, and a state published in between carries the
    flag set. *)
Definition guarded_run (before after : list event) : Prop :=
  ∃ body,
    after = before ++ [GuardAssigned true] ++ body ++ [GuardAssigned false] ∧
    Forall (λ e, match e with
                 | GuardAssigned _ => False
                 | ServiceCall _ _ _ => True
                 | StateWritten g => _applying_state g = true
                 end) body.

(** The checklist of [_store_color_from_kwargs], in its order. *)
Definition color_checklist : list (string * ColorMode) :=
  [(ATTR_HS_COLOR, HS); (ATTR_RGB_COLOR, RGB); (ATTR_RGBW_COLOR, RGBW);
   (ATTR_RGBWW_COLOR, RGBWW); (ATTR_XY_COLOR, XY);
   (ATTR_COLOR_TEMP, COLOR_TEMP)].

(** The entries of the checklist whose attribute is among the keyword
    arguments. *)
Definition supplied (kwargs : Kwargs) : list (string * ColorMode) :=
  List.filter (λ p, match kw kwargs !! p.1 with Some _ => true | None => false end)
    color_checklist.

(** The field that holds the payload of a colour mode. *)
Definition color_field (mode : ColorMode) (g : OffsetLightGroup) : pyval :=
  match mode with
  | HS => _hs_color g
  | RGB => _rgb_color g
  | RGBW => _rgbw_color g
  | RGBWW => _rgbww_color g
  | XY => _xy_color g
  | COLOR_TEMP => _color_temp g
  | _ => PyNone
  end.

(** A host whose calls all succeed, and one that fails the call after [n]
    events. *)
Definition obliging : host := λ _, None.

Definition failing_at (n : nat) : host :=
  λ h, if decide (length h = n) then Some (HostError "unreachable") else None.

(** Two members, offsets -25 and +10 percentage points. *)
Definition pair_of_lights : OffsetLightGroup :=
  __init__ "id" "pair"
    [("light.a", {[CONF_OFFSET := -25; CONF_MIN_BRIGHTNESS := 1;
                   CONF_MAX_BRIGHTNESS := 100]});
     ("light.b", {[CONF_OFFSET := 10; CONF_MIN_BRIGHTNESS := 1;
                   CONF_MAX_BRIGHTNESS := 100]})]
    OFFSET_TYPE_ABSOLUTE.

Definition bare : Kwargs := {| kw_brightness := None; kw := ∅ |}.

Definition turned_off_data (kwargs : Kwargs) (g : OffsetLightGroup) : event :=
  ServiceCall "light" SERVICE_TURN_OFF (turn_off_service_data kwargs (entity_ids g)).

End Run.

(** ** Describing what a resynchronization pass observes *)
Module Observed.
Import Const Host Py Light.

(** The member's observation, unless it is absent or marked unavailable or
    unknown. *)
Definition available (states : gmap string State) (entity_id : string)
    : option State :=
  match states !! entity_id with
  | Some st =>
      if decide (state st = STATE_UNAVAILABLE ∨ state st = STATE_UNKNOWN)
      then None else Some st
  | None => None
  end.

(** The member's observation reports on. *)
Definition reports_on (states : gmap string State) (entity_id : string)
    : bool :=
  match states !! entity_id with
  | Some st => bool_decide (state st = STATE_ON)
  | None => false
  end.

(** The colour modes and the features one observation reports. *)
Definition member_modes (st : State) : gset ColorMode :=
  list_to_set
    (omap ColorMode_of_value
       (default [] (attr_supported_color_modes (attributes st)))).

Definition member_features (st : State) : N :=
  default 0%N (attr_supported_features (attributes st)).

(** The union of what the observed members report. *)
Definition reported_modes (states : gmap string State)
    (self : OffsetLightGroup) : gset ColorMode :=
  ⋃ (member_modes <$> omap (available states) (entity_ids self)).

Definition reported_features (states : gmap string State)
    (self : OffsetLightGroup) : N :=
  foldr N.lor 0%N
    (member_features <$> omap (available states) (entity_ids self)).

(** Observations for the examples: a light that is off and one that the
    host has lost. *)
Definition off_light : State :=
  {| state := "off";
     attributes :=
       {| attr_brightness := None; attr_color_mode := None;
          attr_supported_color_modes := Some ["hs"; "color_temp"; "plaid"];
          attr_supported_features := Some 32%N;
          attr_hs_color := None; attr_color_temp := None;
          attr_rgb_color := None; attr_rgbw_color := None;
          attr_rgbww_color := None; attr_xy_color := None |} |}.

Definition lost_light : State :=
  {| state := STATE_UNAVAILABLE;
     attributes :=
       {| attr_brightness := None; attr_color_mode := None;
          attr_supported_color_modes := Some ["rgb"];
          attr_supported_features := Some 1%N;
          attr_hs_color := None; attr_color_temp := None;
          attr_rgb_color := None; attr_rgbw_color := None;
          attr_rgbww_color := None; attr_xy_color := None |} |}.

Definition lit (g : OffsetLightGroup) : OffsetLightGroup :=
  set_is_on true (set_color_mode (Some HS)
                    (set_hs_color (PyTuple [PyInt 30; PyInt 80]) g)).

End Observed.

(** ** Tabulating the brightness mapping *)
Module Mapping.
Import Const Host Py Light Member.

(** The target of the given mode, before clamping. *)
Definition target (relative : bool) (m offset : Z) : outcome Z :=
  if relative then relative_target m offset else absolute_target m offset.

(** None of the results raises and they do not decrease along the list. *)
Fixpoint ascends (results : list (outcome Z)) : bool :=
  match results with
  | [] => true
  | Raises _ :: _ => false
  | Returns a :: rest =>
      match rest with
      | Returns b :: _ => (a <=? b) && ascends rest
      | Raises _ :: _ => false
      | [] => true
      end
  end.

(** The targets for the master brightnesses 0..255 at one offset. *)
Definition row (relative : bool) (offset : Z) : list (outcome Z) :=
  (λ m, target relative m offset) <$> seqZ 0 256.

(** The targets for the offsets -100..100 at one master brightness. *)
Definition column (relative : bool) (m : Z) : list (outcome Z) :=
  (λ offset, target relative m offset) <$> seqZ (-100) 201.

(** The member's percentages are percentages: 1..100 each, in whichever
    order. *)
Definition percentages (self : OffsetLightGroup) (entity_id : string) : Prop :=
  1 ≤ min_pct self entity_id ≤ 100 ∧ 1 ≤ max_pct self entity_id ≤ 100.

(** The group's mode, as the mapping tests it. *)
Definition is_relative (self : OffsetLightGroup) : bool :=
  bool_decide (_offset_type self = OFFSET_TYPE_RELATIVE).

(** Two members of a group, offsets -25 and +10, bounds 10%..80%. *)
Definition two_members (offset_type : string) : OffsetLightGroup :=
  __init__ "id" "pair"
    [("light.a", {[CONF_OFFSET := -25; CONF_MIN_BRIGHTNESS := 10;
                   CONF_MAX_BRIGHTNESS := 80]});
     ("light.b", {[CONF_OFFSET := 10; CONF_MIN_BRIGHTNESS := 10;
                   CONF_MAX_BRIGHTNESS := 80]})]
    offset_type.

End Mapping.

(** ** What one operation adds to the history *)
Module Trace.
Import Const Host Py Light.

Definition added (before after : World) : list event :=
  drop (length (history before)) (history after).

Definition is_publication (e : event) : bool :=
  match e with StateWritten _ => true | _ => false end.

(** A light that is on, in colour temperature mode. *)
Definition warm_light : State :=
  {| state := STATE_ON;
     attributes :=
       {| attr_brightness := Some 180; attr_color_mode := Some "color_temp";
          attr_supported_color_modes := Some ["color_temp"];
          attr_supported_features := None;
          attr_hs_color := None; attr_color_temp := Some (PyInt 370);
          attr_rgb_color := None; attr_rgbw_color := None;
          attr_rgbww_color := None; attr_xy_color := None |} |}.

End Trace.

(** ** light.py: set-up, restart and diagnostics *)
Module Lifecycle.
Import Const Host Py Light.

(** A light entry of a config entry's data: its entity id, and the settings
    it holds (the flows store ints). *)
Record LightData := {
  light_entity_id : string;
  light_settings : gmap string Z;
}.

(** The member config [async_setup_entry] builds from a light entry: each
    setting, or its default. *)
Definition member_config (light : LightData) : gmap string Z :=
  {[CONF_OFFSET :=
      default DEFAULT_OFFSET (light_settings light !! CONF_OFFSET);
    CONF_MIN_BRIGHTNESS :=
      default DEFAULT_MIN_BRIGHTNESS (light_settings light !! CONF_MIN_BRIGHTNESS);
    CONF_MAX_BRIGHTNESS :=
      default DEFAULT_MAX_BRIGHTNESS (light_settings light !! CONF_MAX_BRIGHTNESS)]}.

(** [async_setup_entry], from the entry's id and the fields of its data
    ([lights] and [offset_type] can be missing) to the entity it hands to
    [async_add_entities]. *)
Definition async_setup_entry (entry_id name : string)
    (lights_config : option (list LightData)) (offset_type : option string)
    : OffsetLightGroup :=
  let lights_config := default [] lights_config in
  let offset_type := default DEFAULT_OFFSET_TYPE offset_type in
  let entities_config :=
    foldl (λ entities_config light,
             dict_set (light_entity_id light) (member_config light)
               entities_config)
          [] lights_config in
  __init__ entry_id name entities_config offset_type.

(** What [async_get_last_state] returns of the state kept from the last
    run: the state string and the two attributes [async_added_to_hass]
    reads ([None] for a missing or [None]-valued attribute). *)
Record LastState := {
  last_state : string;
  last_master_brightness : option Z;
  last_brightness : option Z;
}.

(** The brightness to restore: the entity's own attribute first, then the
    standard one. *)
Definition restored_brightness (last : LastState) : option Z :=
  match last_master_brightness last with
  | Some brightness => Some brightness
  | None => last_brightness last
  end.

(** [async_added_to_hass]: the restore and the initial state update. The
    registration of [async_state_changed_listener] in between is the
    host's and changes nothing of the entity. *)
Definition async_added_to_hass (last : option LastState)
    (states : gmap string State) (self : OffsetLightGroup)
    : OffsetLightGroup :=
  let self :=
    match last with
    | Some last =>
        let self := set_is_on (bool_decide (last_state last = STATE_ON)) self in
        match restored_brightness last with
        | Some brightness => set_master_brightness brightness self
        | None => self
        end
    | None => self
    end in
  _update_state_from_members states self.

(** The [extra_state_attributes] property. *)
Definition extra_state_attributes (self : OffsetLightGroup)
    : list (string * pyval) :=
  let offsets :=
    foldl (λ offsets '(entity_id, config),
             dict_set entity_id
               (PyInt (default DEFAULT_OFFSET (config !! CONF_OFFSET))) offsets)
          [] (_entities_config self) in
  [(ATTR_ENTITY_ID, PyList (PyStr <$> entity_ids self));
   (ATTR_MASTER_BRIGHTNESS, PyInt (_master_brightness self));
   (ATTR_OFFSETS, PyDict offsets)].

(** [attributes.get(ATTR_MASTER_BRIGHTNESS)] on the attributes the host
    kept of a published state. *)
Definition kept_master_brightness (attrs : list (string * pyval)) : option Z :=
  match dict_get ATTR_MASTER_BRIGHTNESS attrs with
  | Some (PyInt b) => Some b
  | _ => None
  end.

(** Two light entries, the second without settings. *)
Definition sofa_and_desk : list LightData :=
  [{| light_entity_id := "light.sofa";
      light_settings := {[CONF_OFFSET := -25; CONF_MIN_BRIGHTNESS := 5;
                          CONF_MAX_BRIGHTNESS := 90]} |};
   {| light_entity_id := "light.desk"; light_settings := ∅ |}].

End Lifecycle.

(** ** config_flow.py: saving a changed selection of lights *)
Module Options.
Import Const Host Py Light Lifecycle.

(** [_async_save_light_changes], from the lights of the entry's data, the
    selection and the configs entered for new lights, to the lights it
    stores. *)
Definition _async_save_light_changes (data_lights : list LightData)
    (_selected_lights : list string)
    (new_entity_configs : gmap string (gmap string Z)) : list LightData :=
  let existing_configs :=
    foldl (λ existing light, dict_set (light_entity_id light) light existing)
          [] data_lights in
  foldl (λ lights_config entity_id,
           match dict_get entity_id existing_configs with
           | Some light => lights_config ++ [light]
           | None =>
               let cfg := default ∅ (new_entity_configs !! entity_id) in
               lights_config ++
               [{| light_entity_id := entity_id;
                   light_settings :=
                     {[CONF_OFFSET :=
                         default DEFAULT_OFFSET (cfg !! CONF_OFFSET);
                       CONF_MIN_BRIGHTNESS :=
                         default DEFAULT_MIN_BRIGHTNESS (cfg !! CONF_MIN_BRIGHTNESS);
                       CONF_MAX_BRIGHTNESS :=
                         default DEFAULT_MAX_BRIGHTNESS (cfg !! CONF_MAX_BRIGHTNESS)]} |}]
           end)
        [] _selected_lights.

(** The entry stored for one selected entity. *)
Definition stored_entry (data_lights : list LightData)
    (new_entity_configs : gmap string (gmap string Z)) (entity_id : string)
    : LightData :=
  match last (List.filter
                (λ light, bool_decide (light_entity_id light = entity_id))
                data_lights) with
  | Some light => light
  | None =>
      let cfg := default ∅ (new_entity_configs !! entity_id) in
      {| light_entity_id := entity_id;
         light_settings :=
           {[CONF_OFFSET := default DEFAULT_OFFSET (cfg !! CONF_OFFSET);
             CONF_MIN_BRIGHTNESS :=
               default DEFAULT_MIN_BRIGHTNESS (cfg !! CONF_MIN_BRIGHTNESS);
             CONF_MAX_BRIGHTNESS :=
               default DEFAULT_MAX_BRIGHTNESS (cfg !! CONF_MAX_BRIGHTNESS)]} |}
  end.

(** The split of a new selection that [async_step_manage_lights] makes. *)
Definition removed_lights (current_lights new_lights : list string) : list string :=
  List.filter (λ eid, negb (bool_decide (eid ∈ new_lights))) current_lights.

Definition added_lights (current_lights new_lights : list string) : list string :=
  List.filter (λ eid, negb (bool_decide (eid ∈ current_lights))) new_lights.

End Options.

(** ** config_flow.py: what the YAML validation accepts *)
Module Accepted.
Import Const Host Py ConfigFlow.

(** [light_config] is the config made of the light entry [light]: the
    entry is a mapping whose [entity_id] is a string that starts with
    [light.]; the three settings are taken as they are, whatever they are,
    or defaulted. *)
Definition accepted_light (light light_config : pyval) : Prop :=
  ∃ entries entity_id,
    light = PyDict entries ∧
    dict_get "entity_id" entries = Some (PyStr entity_id) ∧
    String.prefix "light." entity_id = true ∧
    light_config
    = PyDict [(CONF_ENTITY_ID, PyStr entity_id);
              (CONF_OFFSET, default (PyInt 0) (dict_get "offset" entries));
              (CONF_MIN_BRIGHTNESS,
               default (PyInt 1) (dict_get "min_brightness" entries));
              (CONF_MAX_BRIGHTNESS,
               default (PyInt 100) (dict_get "max_brightness" entries))].

(** [config] is the configuration made of the loaded document. *)
Definition accepted (loaded : load_result) (config : pyval) : Prop :=
  ∃ parsed parsed_name parsed_lights lights_config,
    loaded = Loaded (PyDict parsed) ∧
    dict_get "name" parsed = Some parsed_name ∧
    dict_get "lights" parsed = Some (PyList parsed_lights) ∧
    (2 ≤ length parsed_lights)%nat ∧
    Forall2 accepted_light parsed_lights lights_config ∧
    config
    = PyDict [(CONF_NAME, parsed_name);
              (CONF_OFFSET_TYPE,
               default (PyStr "absolute") (dict_get "offset_type" parsed));
              (CONF_LIGHTS, PyList lights_config)].

(** A document whose second light has its bounds inverted and a string
    for an offset. *)
Definition odd_document : load_result :=
  Loaded (PyDict
    [("name", PyInt 7);
     ("lights",
      PyList
        [PyDict [("entity_id", PyStr "light.sofa")];
         PyDict [("entity_id", PyStr "light.desk");
                 ("offset", PyStr "much");
                 ("min_brightness", PyInt 90);
                 ("max_brightness", PyInt 10)]])]).

End Accepted.

(** * Properties *)

Import Const Host Py Light.

Ltac by_evaluation := vm_compute; first [reflexivity | discriminate | easy].
Ltac bounds_by_evaluation :=
  repeat split; apply Z.leb_le; vm_compute; reflexivity.

(** ** The brightness mapping *)
Section BrightnessMapping.

Import Member.

Lemma calculate_unfold (self : OffsetLightGroup) (entity_id : string) (m : Z) :
  _calculate_light_brightness self entity_id m =
    (lo ← bound_255 (min_pct self entity_id);
     hi ← bound_255 (max_pct self entity_id);
     t ← (if decide (_offset_type self = OFFSET_TYPE_RELATIVE)
          then relative_target m (offset self entity_id)
          else absolute_target m (offset self entity_id));
     Returns (Spec.clamp t lo hi)).
Proof. reflexivity. Qed.

(** Every percentage 1..100 converts to the floor of pct*255/100: on this
    range the binary64 product never falls below the integer it should
    reach. *)
Lemma bound_255_exact (pct : Z) :
  1 ≤ pct ≤ 100 → bound_255 pct = Returns (Spec.bound Qfloor pct).
Proof.
  intros Hp.
  assert (Hall : forallb (λ p, match bound_255 p with
                               | Returns b => b =? Spec.bound Qfloor p
                               | Raises _ => false
                               end) (seqZ 1 100) = true)
    by (vm_compute; reflexivity).
  rewrite forallb_forall in Hall.
  specialize (Hall pct). 
  destruct (bound_255 pct) as [b|e].
  - f_equal. apply Z.eqb_eq, Hall. apply list_elem_of_In, elem_of_seqZ. lia.
  - discriminate Hall. apply list_elem_of_In, elem_of_seqZ. lia.
Qed.

Lemma bound_floor_Z (pct : Z) : Spec.bound Qfloor pct = pct * 255 / 100.
Proof.
  unfold Spec.bound, Qfloor, Qdiv, Qmult, Qinv, inject_Z. simpl.
  f_equal. lia.
Qed.

(** How far the truncated binary64 target may lie from the exact one:
    equal or one below when the exact one is not negative, and not above
    zero when it is. *)
Definition near (exact t : Z) : bool :=
  (exact - 1 <=? t) && (t <=? Z.max exact 0).

Definition near_target (code : outcome Z) (exact : Z) : bool :=
  match code with
  | Returns t => near exact t
  | Raises _ => false
  end.

Lemma absolute_target_near (m offset : Z) :
  0 ≤ m ≤ 255 → -100 ≤ offset ≤ 100 →
  near_target (absolute_target m offset)
    (Spec.absolute_target Qfloor m offset) = true.
Proof.
  intros Hm Ho.
  assert (Hall : forallb (λ m, forallb (λ o,
              near_target (absolute_target m o)
                (Spec.absolute_target Qfloor m o)) (seqZ (-100) 201))
            (seqZ 0 256) = true)
    by (vm_compute; reflexivity).
  rewrite forallb_forall in Hall.
  specialize (Hall m). rewrite forallb_forall in Hall.
  apply Hall; apply list_elem_of_In, elem_of_seqZ; lia.
Qed.

Lemma relative_target_near (m offset : Z) :
  0 ≤ m ≤ 255 → -100 ≤ offset ≤ 100 →
  near_target (relative_target m offset)
    (Spec.relative_target Qfloor m offset) = true.
Proof.
  intros Hm Ho.
  assert (Hall : forallb (λ m, forallb (λ o,
              near_target (relative_target m o)
                (Spec.relative_target Qfloor m o)) (seqZ (-100) 201))
            (seqZ 0 256) = true)
    by (vm_compute; reflexivity).
  rewrite forallb_forall in Hall.
  specialize (Hall m). rewrite forallb_forall in Hall.
  apply Hall; apply list_elem_of_In, elem_of_seqZ; lia.
Qed.

(** Clamping into bounds that start at 1 or above absorbs the distance
    [near] allows, up to one step down. *)
Lemma clamp_near (exact t lo hi : Z) :
  1 ≤ lo → lo ≤ hi → near exact t = true →
  Spec.clamp t lo hi = Spec.clamp exact lo hi ∨
  Spec.clamp t lo hi = Spec.clamp exact lo hi - 1.
Proof.
  unfold near, Spec.clamp. intros Hlo Hhi Hn.
  apply andb_prop in Hn as [H1 H2].
  apply Z.leb_le in H1. apply Z.leb_le in H2. lia.
Qed.

(** The common part of the two modes. *)
Lemma clamped_near (self : OffsetLightGroup) (entity_id : string)
    (code : outcome Z) (exact : Z) :
  1 ≤ min_pct self entity_id → min_pct self entity_id ≤ max_pct self entity_id →
  max_pct self entity_id ≤ 100 →
  near_target code exact = true →
  let spec := Spec.clamp exact (Spec.bound Qfloor (min_pct self entity_id))
                (Spec.bound Qfloor (max_pct self entity_id)) in
  ∃ t, code = Returns t ∧
    (lo ← bound_255 (min_pct self entity_id);
     hi ← bound_255 (max_pct self entity_id);
     t ← code; Returns (Spec.clamp t lo hi))
    = Returns (Spec.clamp t (Spec.bound Qfloor (min_pct self entity_id))
                 (Spec.bound Qfloor (max_pct self entity_id))) ∧
    (Spec.clamp t (Spec.bound Qfloor (min_pct self entity_id))
       (Spec.bound Qfloor (max_pct self entity_id)) = spec ∨
     Spec.clamp t (Spec.bound Qfloor (min_pct self entity_id))
       (Spec.bound Qfloor (max_pct self entity_id)) = spec - 1).
Proof.
  intros Hmin Hle Hmax Hn spec.
  destruct code as [t|e]; [|discriminate Hn].
  exists t. split; [reflexivity|].
  rewrite !bound_255_exact by lia. split; [reflexivity|].
  apply clamp_near; [| |exact Hn]; rewrite !bound_floor_Z.
  - apply Z.div_le_lower_bound; lia.
  - apply Z.div_le_mono; lia.
Qed.

(** C1 (as amended). In absolute mode, for a master brightness in 0..255, an
    offset in -100..100 and percentages 1 <= minPct <= maxPct <= 100, the
    mapping returns clamp(t, floor(minPct*255/100), floor(maxPct*255/100)),
    where t is the truncation of the binary64 value of
    (m/255*100+offset)/100*255; that result is the exact (rational, floored)
    value of the specification's formula or one below it. *)
Theorem absolute_brightness_near_exact
    (self : OffsetLightGroup) (entity_id : string) (m : Z) :
  _offset_type self = OFFSET_TYPE_ABSOLUTE →
  0 ≤ m ≤ 255 →
  -100 ≤ offset self entity_id ≤ 100 →
  1 ≤ min_pct self entity_id →
  min_pct self entity_id ≤ max_pct self entity_id →
  max_pct self entity_id ≤ 100 →
  ∃ t r,
    absolute_target m (offset self entity_id) = Returns t ∧
    r = Spec.clamp t (Spec.bound Qfloor (min_pct self entity_id))
          (Spec.bound Qfloor (max_pct self entity_id)) ∧
    _calculate_light_brightness self entity_id m = Returns r ∧
    let exact := Spec.absolute Qfloor m (offset self entity_id)
                   (min_pct self entity_id) (max_pct self entity_id) in
    r = exact ∨ r = exact - 1.
Proof.
  intros Hmode Hm Ho Hmin Hle Hmax.
  pose proof (absolute_target_near m _ Hm Ho) as Hn.
  destruct (clamped_near self entity_id _ _ Hmin Hle Hmax Hn)
    as (t & Ht & Hrun & Hnear).
  exists t, (Spec.clamp t (Spec.bound Qfloor (min_pct self entity_id))
               (Spec.bound Qfloor (max_pct self entity_id))).
  split; [exact Ht|]. split; [reflexivity|]. split; [|exact Hnear].
  rewrite calculate_unfold, Hmode.
  destruct (decide (OFFSET_TYPE_ABSOLUTE = OFFSET_TYPE_RELATIVE)) as [E|_];
    [discriminate E|].
  exact Hrun.
Qed.

Lemma absolute_brightness_near_exact_witness :
  let self := single OFFSET_TYPE_ABSOLUTE (-25) 1 100 in
  (0 ≤ 200 ≤ 255 ∧ -100 ≤ offset self "light.a" ≤ 100 ∧
   1 ≤ min_pct self "light.a" ≤ max_pct self "light.a" ∧
   max_pct self "light.a" ≤ 100) ∧
  ∃ t r,
    absolute_target 200 (offset self "light.a") = Returns t ∧
    r = Spec.clamp t (Spec.bound Qfloor (min_pct self "light.a"))
          (Spec.bound Qfloor (max_pct self "light.a")) ∧
    _calculate_light_brightness self "light.a" 200 = Returns r ∧
    let exact := Spec.absolute Qfloor 200 (offset self "light.a")
                   (min_pct self "light.a") (max_pct self "light.a") in
    r = exact ∨ r = exact - 1.
Proof.
  split; [bounds_by_evaluation|].
  apply (absolute_brightness_near_exact
           (single OFFSET_TYPE_ABSOLUTE (-25) 1 100) "light.a" 200);
    first [reflexivity | bounds_by_evaluation].
Defined.

(** C1 fails as stated: with master brightness 15, offset 0 and bounds
    1%..100% the specification's formula gives 15 under every rounding it
    could mean, and the mapping returns 14 (the binary64 value of
    (15/255*100+0)/100*255 is just below 15 and [int] truncates it). *)
Lemma absolute_brightness_not_exact :
  _calculate_light_brightness (single OFFSET_TYPE_ABSOLUTE 0 1 100) "light.a" 15
    = Returns 14 ∧
  Spec.absolute Qfloor 15 0 1 100 = 15 ∧
  Spec.absolute Spec.half_even 15 0 1 100 = 15 ∧
  Spec.absolute Spec.truncate 15 0 1 100 = 15 ∧
  _calculate_light_brightness (single OFFSET_TYPE_ABSOLUTE 0 1 100) "light.a" 15
    ≠ Returns (Spec.absolute Qfloor 15 0 1 100).
Proof. repeat split; by_evaluation. Qed.

(** C2 (as amended). In relative mode, for a master brightness in 0..255, an
    offset in -100..100 and percentages 1 <= minPct <= maxPct <= 100, the
    mapping returns clamp(t, minBound, maxBound), where t is the truncation
    of the binary64 product of m and the binary64 quotient (100+offset)/100;
    that result is the exact value clamp(floor(m*(100+offset)/100), ...) or
    one below it. *)
Theorem relative_brightness_near_exact
    (self : OffsetLightGroup) (entity_id : string) (m : Z) :
  _offset_type self = OFFSET_TYPE_RELATIVE →
  0 ≤ m ≤ 255 →
  -100 ≤ offset self entity_id ≤ 100 →
  1 ≤ min_pct self entity_id →
  min_pct self entity_id ≤ max_pct self entity_id →
  max_pct self entity_id ≤ 100 →
  ∃ t r,
    relative_target m (offset self entity_id) = Returns t ∧
    r = Spec.clamp t (Spec.bound Qfloor (min_pct self entity_id))
          (Spec.bound Qfloor (max_pct self entity_id)) ∧
    _calculate_light_brightness self entity_id m = Returns r ∧
    let exact := Spec.relative Qfloor m (offset self entity_id)
                   (min_pct self entity_id) (max_pct self entity_id) in
    r = exact ∨ r = exact - 1.
Proof.
  intros Hmode Hm Ho Hmin Hle Hmax.
  pose proof (relative_target_near m _ Hm Ho) as Hn.
  destruct (clamped_near self entity_id _ _ Hmin Hle Hmax Hn)
    as (t & Ht & Hrun & Hnear).
  exists t, (Spec.clamp t (Spec.bound Qfloor (min_pct self entity_id))
               (Spec.bound Qfloor (max_pct self entity_id))).
  split; [exact Ht|]. split; [reflexivity|]. split; [|exact Hnear].
  rewrite calculate_unfold, Hmode.
  destruct (decide (OFFSET_TYPE_RELATIVE = OFFSET_TYPE_RELATIVE)) as [_|N];
    [exact Hrun | contradiction].
Qed.

Lemma relative_brightness_near_exact_witness :
  let self := single OFFSET_TYPE_RELATIVE (-25) 1 100 in
  (0 ≤ 200 ≤ 255 ∧ -100 ≤ offset self "light.a" ≤ 100 ∧
   1 ≤ min_pct self "light.a" ≤ max_pct self "light.a" ∧
   max_pct self "light.a" ≤ 100) ∧
  ∃ t r,
    relative_target 200 (offset self "light.a") = Returns t ∧
    r = Spec.clamp t (Spec.bound Qfloor (min_pct self "light.a"))
          (Spec.bound Qfloor (max_pct self "light.a")) ∧
    _calculate_light_brightness self "light.a" 200 = Returns r ∧
    let exact := Spec.relative Qfloor 200 (offset self "light.a")
                   (min_pct self "light.a") (max_pct self "light.a") in
    r = exact ∨ r = exact - 1.
Proof.
  split; [bounds_by_evaluation|].
  apply (relative_brightness_near_exact
           (single OFFSET_TYPE_RELATIVE (-25) 1 100) "light.a" 200);
    first [reflexivity | bounds_by_evaluation].
Defined.

(** C2 fails as stated: with master brightness 100 and offset -71 the
    formula round(100*(100-71)/100) is 29 under every rounding, and the
    mapping returns 28 (the binary64 quotient 29/100 is below 0.29, so the
    product is below 29 and [int] truncates it). *)
Lemma relative_brightness_not_exact :
  _calculate_light_brightness (single OFFSET_TYPE_RELATIVE (-71) 1 100)
    "light.a" 100 = Returns 28 ∧
  Spec.relative Qfloor 100 (-71) 1 100 = 29 ∧
  Spec.relative Spec.half_even 100 (-71) 1 100 = 29 ∧
  Spec.relative Spec.truncate 100 (-71) 1 100 = 29 ∧
  _calculate_light_brightness (single OFFSET_TYPE_RELATIVE (-71) 1 100)
    "light.a" 100 ≠ Returns (Spec.relative Qfloor 100 (-71) 1 100).
Proof. repeat split; by_evaluation. Qed.

(** The specification's second example does hold: master 200 at offset -25
    in relative mode is 150. *)
Example relative_200_minus_25 :
  _calculate_light_brightness (single OFFSET_TYPE_RELATIVE (-25) 1 100)
    "light.a" 200 = Returns 150.
Proof. by_evaluation. Qed.

(** C3 (as amended). For master brightness 200, offset -25, minPct 1,
    maxPct 100 in absolute mode the mapping returns 136: the master percent
    78.43 is not truncated, the target percent is 53.43, which scales to
    136.25 (exactly 545/4) and truncates to 136; the bounds are [2, 255]. *)
Theorem absolute_200_minus_25 :
  _calculate_light_brightness (single OFFSET_TYPE_ABSOLUTE (-25) 1 100)
    "light.a" 200 = Returns 136 ∧
  absolute_target 200 (-25) = Returns 136 ∧
  bound_255 1 = Returns 2 ∧
  bound_255 100 = Returns 255 ∧
  ((inject_Z 200 / 255 * 100 + inject_Z (-25)) / 100 * 255 == 545 # 4)%Q.
Proof. repeat split; by_evaluation. Qed.

(** C3 fails as stated: the mapping does not return 135 on that input. 135
    is what truncating the master percent to 78 first would give
    (floor(53*255/100)), a step the code does not take. *)
Lemma absolute_200_minus_25_is_not_135 :
  _calculate_light_brightness (single OFFSET_TYPE_ABSOLUTE (-25) 1 100)
    "light.a" 200 ≠ Returns 135 ∧
  Spec.bound Qfloor (Qfloor (inject_Z 200 / 255 * 100) + -25) = 135.
Proof. split; by_evaluation. Qed.

End BrightnessMapping.

(** ** Turn-on and turn-off *)
Section Controller.

Import Run.

(** The mapping reads nothing but the configuration and the mode. *)
Lemma calculate_same_config (g1 g2 : OffsetLightGroup) (entity_id : string) (m : Z) :
  _entities_config g1 = _entities_config g2 →
  _offset_type g1 = _offset_type g2 →
  _calculate_light_brightness g1 entity_id m = _calculate_light_brightness g2 entity_id m.
Proof.
  intros Hc Ht. unfold _calculate_light_brightness. rewrite Hc, Ht. reflexivity.
Qed.

Lemma store_if_present_frame kwargs attr set_field mode self :
  (∀ v g, _entities_config (set_field v g) = _entities_config g ∧
          _offset_type (set_field v g) = _offset_type g ∧
          _master_brightness (set_field v g) = _master_brightness g ∧
          _is_on (set_field v g) = _is_on g ∧
          _applying_state (set_field v g) = _applying_state g) →
  let g' := store_if_present kwargs attr set_field mode self in
  _entities_config g' = _entities_config self ∧
  _offset_type g' = _offset_type self ∧
  _master_brightness g' = _master_brightness self ∧
  _is_on g' = _is_on self ∧
  _applying_state g' = _applying_state self.
Proof.
  intros H. unfold store_if_present. destruct (kw kwargs !! attr); [|done].
  simpl. apply H.
Qed.

Lemma store_color_frame kwargs self :
  let g' := _store_color_from_kwargs kwargs self in
  _entities_config g' = _entities_config self ∧
  _offset_type g' = _offset_type self ∧
  _master_brightness g' = _master_brightness self ∧
  _is_on g' = _is_on self ∧
  _applying_state g' = _applying_state self.
Proof.
  unfold _store_color_from_kwargs.
  repeat match goal with
  | |- context [store_if_present ?k ?a ?f ?m ?g] =>
      let H := fresh in
      pose proof (store_if_present_frame k a f m g) as H;
      cbv zeta in H;
      destruct H as (-> & -> & -> & -> & ->); [done|]
  end.
  done.
Qed.

Lemma turn_on_member_run hass kwargs entity_id w :
  turn_on_member hass kwargs entity_id w =
    match _calculate_light_brightness (self w) entity_id
            (_master_brightness (self w)) with
    | Raises e => (Raises e, w)
    | Returns b =>
        let h := history w ++
                 [ServiceCall "light" SERVICE_TURN_ON
                    (turn_on_service_data kwargs entity_id b)] in
        (match hass h with None => Returns () | Some err => Raises err end,
         {| self := self w; history := h |})
    end.
Proof.
  unfold turn_on_member, mbind, M_bind, get_self, lift, async_call, external.
  destruct (_calculate_light_brightness _ _ _); reflexivity.
Qed.

Lemma fan_out_run hass kwargs members : ∀ w r w',
  for_each members (turn_on_member hass kwargs) w = (r, w') →
  self w' = self w ∧
  ∃ calls,
    history w' = history w ++ calls ∧
    Forall2 (member_command kwargs (self w) (_master_brightness (self w)))
      (take (length calls) members) calls ∧
    (r = Returns () → length calls = length members).
Proof.
  induction members as [|entity_id rest IH]; intros w r w' Hrun.
  - injection Hrun as <- <-. split; [done|]. exists [].
    rewrite app_nil_r. repeat split; constructor.
  - simpl in Hrun. unfold mbind, M_bind in Hrun.
    rewrite turn_on_member_run in Hrun.
    destruct (_calculate_light_brightness (self w) entity_id
                (_master_brightness (self w))) as [b|e] eqn:Hb.
    + cbv zeta in Hrun.
      set (call := ServiceCall "light" SERVICE_TURN_ON
                     (turn_on_service_data kwargs entity_id b)) in *.
      destruct (hass (history w ++ [call])) as [err|].
      * injection Hrun as <- <-. split; [done|]. exists [call].
        repeat split; [|done]. simpl. constructor; [|constructor].
        exists b. done.
      * apply IH in Hrun as (Hself & calls & Hh & Hall & Hlen).
        simpl in *. split; [done|]. exists (call :: calls).
        rewrite Hh, <- app_assoc. repeat split.
        -- simpl. constructor; [exists b; done | done].
        -- intros Hr. simpl. f_equal. auto.
    + injection Hrun as <- <-. split; [done|]. exists [].
      rewrite app_nil_r. repeat split; [constructor | done].
Qed.

Lemma async_turn_on_unfold hass kwargs w :
  async_turn_on hass kwargs w =
    let g := taken_in kwargs (self w) in
    let w1 := {| self := g; history := history w ++ [GuardAssigned true] |} in
    let '(r1, w2) := for_each (entity_ids g) (turn_on_member hass kwargs) w1 in
    match r1 with
    | Raises e =>
        (Raises e,
         {| self := set_applying_state false (self w2);
            history := history w2 ++ [GuardAssigned false] |})
    | Returns _ =>
        let g' := set_is_on true (self w2) in
        let h := history w2 ++ [StateWritten g'] in
        (match hass h with None => Returns () | Some err => Raises err end,
         {| self := set_applying_state false g';
            history := h ++ [GuardAssigned false] |})
    end.
Proof.
  unfold async_turn_on, taken_in, assign_applying_state, try_finally,
    async_write_ha_state, external, get_self, update, emit, mbind, M_bind,
    mret, M_ret.
  cbv beta iota zeta. simpl self. simpl history.
  destruct (kw_brightness kwargs); simpl self; simpl history;
    destruct (for_each _ _ _) as [[[]|e] w2]; simpl;
    try destruct (hass _); reflexivity.
Qed.

(** What a run of [async_turn_on] does, on every path: [calls] are the
    member commands that went out, [completed] tells whether the loop ran
    to its end (after which the entity is marked on and published). *)
Lemma async_turn_on_run hass kwargs w r w' :
  async_turn_on hass kwargs w = (r, w') →
  let g := taken_in kwargs (self w) in
  ∃ calls (completed : bool),
    self w' = set_applying_state false (if completed then set_is_on true g else g) ∧
    history w' = history w ++ [GuardAssigned true] ++ calls
                 ++ (if completed then [StateWritten (set_is_on true g)] else [])
                 ++ [GuardAssigned false] ∧
    Forall2 (member_command kwargs g (_master_brightness g))
      (take (length calls) (entity_ids g)) calls ∧
    (completed = true → length calls = length (entity_ids g)) ∧
    (r = Returns () → completed = true).
Proof.
  intros Hrun g. rewrite async_turn_on_unfold in Hrun. cbv zeta in Hrun.
  fold g in Hrun.
  destruct (for_each _ _ _) as [r1 w2] eqn:Hloop.
  apply fan_out_run in Hloop as (Hself & calls & Hh & Hall & Hlen).
  simpl in Hself, Hh, Hall. exists calls.
  destruct r1 as [[]|e].
  - exists true. injection Hrun as <- <-. simpl. rewrite Hself, Hh.
    rewrite <- !app_assoc. repeat split; auto.
  - exists false. injection Hrun as <- <-. simpl. rewrite Hself, Hh.
    rewrite <- !app_assoc. repeat split; auto; discriminate.
Qed.

Lemma async_turn_off_unfold hass kwargs w :
  async_turn_off hass kwargs w =
    let g := set_applying_state true (self w) in
    let h := (history w ++ [GuardAssigned true])
             ++ [turned_off_data kwargs g] in
    match hass h with
    | Some err =>
        (Raises err,
         {| self := set_applying_state false g;
            history := h ++ [GuardAssigned false] |})
    | None =>
        let g' := set_is_on false g in
        let h' := h ++ [StateWritten g'] in
        (match hass h' with None => Returns () | Some err => Raises err end,
         {| self := set_applying_state false g';
            history := h' ++ [GuardAssigned false] |})
    end.
Proof.
  unfold async_turn_off, assign_applying_state, try_finally,
    async_write_ha_state, async_call, external, get_self, update, emit,
    mbind, M_bind, mret, M_ret, turned_off_data.
  cbv beta iota zeta. simpl self. simpl history.
  destruct (hass _); simpl; [reflexivity|].
  destruct (hass _); reflexivity.
Qed.

Lemma taken_in_frame kwargs g :
  _entities_config (taken_in kwargs g) = _entities_config g ∧
  _offset_type (taken_in kwargs g) = _offset_type g ∧
  _master_brightness (taken_in kwargs g) =
    default (_master_brightness g) (kw_brightness kwargs) ∧
  _applying_state (taken_in kwargs g) = true.
Proof.
  unfold taken_in.
  destruct (store_color_frame kwargs
              (match kw_brightness kwargs with
               | Some b => set_master_brightness b (set_applying_state true g)
               | None => set_applying_state true g
               end)) as (-> & -> & -> & _ & ->).
  destruct (kw_brightness kwargs); done.
Qed.

Lemma member_command_is_call kwargs g m members calls :
  Forall2 (member_command kwargs g m) members calls →
  service_calls calls = calls ∧
  Forall (λ e, match e with
               | GuardAssigned _ => False
               | ServiceCall _ _ _ => True
               | StateWritten g => _applying_state g = true
               end) calls.
Proof.
  induction 1 as [|entity_id call members calls (b & _ & ->) _ [IH1 IH2]].
  - done.
  - split; [|by constructor].
    unfold service_calls in *. simpl. by rewrite IH1.
Qed.

Lemma service_calls_app h1 h2 :
  service_calls (h1 ++ h2) = service_calls h1 ++ service_calls h2.
Proof. apply List.filter_app. Qed.

(** C5. In turn-on and in turn-off, whatever the host answers to the calls
    made (every one of them may raise), the guard flag is assigned [True]
    before anything else, is not assigned again until it is assigned
    [False] as the last step, and is [False] when the operation is left,
    whether it returned or raised. *)
Theorem guard_flag_scoped (hass : host) (kwargs : Kwargs) (w : World) :
  (guarded_run (history w) (history (async_turn_on hass kwargs w).2) ∧
   _applying_state (self (async_turn_on hass kwargs w).2) = false) ∧
  (guarded_run (history w) (history (async_turn_off hass kwargs w).2) ∧
   _applying_state (self (async_turn_off hass kwargs w).2) = false).
Proof.
  split.
  - destruct (async_turn_on hass kwargs w) as [r w'] eqn:Hrun.
    apply async_turn_on_run in Hrun
      as (calls & completed & Hself & Hh & Hall & _ & _).
    simpl. split; [|by rewrite Hself].
    apply member_command_is_call in Hall as [_ Hcalls].
    exists (calls ++ (if completed
                      then [StateWritten (set_is_on true (taken_in kwargs (self w)))]
                      else [])).
    split; [by rewrite Hh, <- !app_assoc|].
    apply Forall_app. split; [exact Hcalls|].
    destruct completed; constructor; [|constructor].
    simpl. apply taken_in_frame.
  - rewrite async_turn_off_unfold. cbv zeta.
    destruct (hass _) as [err|].
    + simpl. split; [|done].
      exists [turned_off_data kwargs (set_applying_state true (self w))].
      rewrite <- !app_assoc. split; [done|]. by repeat constructor.
    + simpl. split; [|done].
      exists [turned_off_data kwargs (set_applying_state true (self w));
              StateWritten (set_is_on false (set_applying_state true (self w)))].
      split; [by rewrite <- !app_assoc | by repeat constructor].
Qed.

Lemma async_turn_off_frame hass kwargs w :
  let g := self (async_turn_off hass kwargs w).2 in
  _entities_config g = _entities_config (self w) ∧
  _offset_type g = _offset_type (self w) ∧
  _master_brightness g = _master_brightness (self w).
Proof.
  rewrite async_turn_off_unfold. cbv zeta.
  destruct (hass _); [done|]. destruct (hass _); done.
Qed.

(** What the data of a member command hold under each key: the service
    data built in the loop of [async_turn_on]. *)
Lemma conditional_insert (kwargs : Kwargs) (attr key : string)
    (data : gmap string pyval) :
  match kw kwargs !! attr with
  | Some payload => <[attr := payload]> data
  | None => data
  end !! key
  = if decide (key = attr)
    then match kw kwargs !! attr with Some p => Some p | None => data !! attr end
    else data !! key.
Proof.
  destruct (decide (key = attr)) as [->|Hne];
    destruct (kw kwargs !! attr); by simplify_map_eq.
Qed.

Lemma turn_on_service_data_lookup (kwargs : Kwargs) (entity_id : string)
    (light_brightness : Z) (key : string) :
  turn_on_service_data kwargs entity_id light_brightness !! key
  = if decide (key = ATTR_ENTITY_ID) then Some (PyStr entity_id)
    else if decide (key = ATTR_BRIGHTNESS) then Some (PyInt light_brightness)
    else if decide (key ∈ forwarded) then kw kwargs !! key
    else None.
Proof.
  unfold turn_on_service_data, COLOR_ATTRS, forwarded. cbn [foldl].
  rewrite !conditional_insert.
  repeat case_decide; subst; simplify_map_eq; try done;
    repeat match goal with
    | H : ?k ∈ _ :: _ |- _ => apply elem_of_cons in H as [H|H]; [by subst|]
    | H : _ ∈ [] |- _ => by apply elem_of_nil in H
    | H : ¬ (_ ∈ _) |- _ => exfalso; apply H; set_solver
    end;
    try (by destruct (kw kwargs !! _)).
Qed.

Lemma member_command_contents kwargs g master entity_id call :
  member_command kwargs g master entity_id call →
  command_from_master kwargs g master entity_id call.
Proof.
  intros (b & Hb & ->). exists b, (turn_on_service_data kwargs entity_id b).
  split; [done|]. split; [done|].
  split; [by rewrite turn_on_service_data_lookup|].
  split; [by rewrite turn_on_service_data_lookup|].
  intros key H1 H2. rewrite turn_on_service_data_lookup.
  by rewrite 2!decide_False by done.
Qed.

(** C4. Turn-off leaves the stored master brightness as it was, and a
    turn-on without a brightness argument that follows it keeps it too and
    dispatches, member by member in configuration order, calls of
    [light.turn_on] whose data name the member under [ATTR_ENTITY_ID] and
    carry under [ATTR_BRIGHTNESS] the mapping, for that member, of the
    master brightness held before the turn-off (beside the forwarded colour
    payload and transition, and nothing else); all members get theirs when
    the turn-on returns. *)
Theorem turn_off_then_turn_on
    (hass_off hass_on : host) (kwargs_off kwargs_on : Kwargs) (w : World) :
  kw_brightness kwargs_on = None →
  let w1 := (async_turn_off hass_off kwargs_off w).2 in
  let run := async_turn_on hass_on kwargs_on w1 in
  let dispatched :=
    service_calls (drop (length (history w1)) (history run.2)) in
  _master_brightness (self w1) = _master_brightness (self w) ∧
  _master_brightness (self run.2) = _master_brightness (self w) ∧
  Forall2 (command_from_master kwargs_on (self w) (_master_brightness (self w)))
    (take (length dispatched) (entity_ids (self w))) dispatched ∧
  (run.1 = Returns () → length dispatched = length (entity_ids (self w))).
Proof.
  intros Hbare w1 run dispatched.
  destruct (async_turn_off_frame hass_off kwargs_off w) as (Hc & Ht & Hm).
  fold w1 in Hc, Ht, Hm.
  destruct run as [r w2] eqn:Hrun. subst run.
  apply async_turn_on_run in Hrun
    as (calls & completed & Hself & Hh & Hall & Hlen & Hret).
  destruct (taken_in_frame kwargs_on (self w1)) as (Hc' & Ht' & Hm' & _).
  rewrite Hbare in Hm'. simpl in Hm'.
  assert (Hd : dispatched = calls).
  { subst dispatched. simpl. rewrite Hh, drop_app_length.
    simpl. rewrite !service_calls_app.
    apply member_command_is_call in Hall as [-> _].
    destruct completed; simpl; by rewrite app_nil_r. }
  rewrite Hd. unfold entity_ids in *. rewrite Hc', Hc in Hall, Hlen.
  rewrite Hm', Hm in Hall.
  split; [exact Hm|]. split.
  { simpl. rewrite Hself. destruct completed; simpl; congruence. }
  split; [|simpl; auto].
  eapply Forall2_impl; [exact Hall|].
  intros entity_id call Hcall. apply member_command_contents.
  destruct Hcall as (b & Hb & ->). exists b. split; [|done].
  rewrite <- Hb. apply calculate_same_config; congruence.
Qed.

Lemma turn_off_then_turn_on_witness :
  let w := {| self := set_is_on true (set_master_brightness 200 pair_of_lights);
              history := [] |} in
  service_calls
    (drop (length (history (async_turn_off obliging bare w).2))
       (history (async_turn_on obliging bare
                   (async_turn_off obliging bare w).2).2))
  = [ServiceCall "light" "turn_on"
       {["entity_id" := PyStr "light.a"; "brightness" := PyInt 136]};
     ServiceCall "light" "turn_on"
       {["entity_id" := PyStr "light.b"; "brightness" := PyInt 225]}].
Proof.
  intros w.
  destruct (turn_off_then_turn_on obliging obliging bare bare w eq_refl)
    as (_ & _ & Hall & Hlen).
  specialize (Hlen eq_refl).
  destruct (service_calls _) as [|c1 [|c2 [|c3 rest]]]; try discriminate Hlen.
  apply Forall2_cons_1 in Hall
    as [(b1 & d1 & Hb1 & -> & Hid1 & Hbr1 & Hrest1) Hall].
  apply Forall2_cons_1 in Hall
    as [(b2 & d2 & Hb2 & -> & Hid2 & Hbr2 & Hrest2) _].
  vm_compute in Hb1. vm_compute in Hb2.
  injection Hb1 as <-. injection Hb2 as <-.
  assert (Hmap : ∀ (d : gmap string pyval) (id : string) (b : Z),
            d !! ATTR_ENTITY_ID = Some (PyStr id) →
            d !! ATTR_BRIGHTNESS = Some (PyInt b) →
            (∀ key, key ≠ ATTR_ENTITY_ID → key ≠ ATTR_BRIGHTNESS →
               d !! key = if decide (key ∈ forwarded)
                          then kw bare !! key else None) →
            d = {[ATTR_ENTITY_ID := PyStr id; ATTR_BRIGHTNESS := PyInt b]}).
  { intros d id b Hid Hbr Hrest. apply map_eq. intros key.
    destruct (decide (key = ATTR_ENTITY_ID)) as [->|Hne1]; [by simplify_map_eq|].
    destruct (decide (key = ATTR_BRIGHTNESS)) as [->|Hne2]; [by simplify_map_eq|].
    rewrite Hrest by done. simplify_map_eq. by case_decide. }
  rewrite (Hmap d1 _ _ Hid1 Hbr1 Hrest1), (Hmap d2 _ _ Hid2 Hbr2 Hrest2).
  reflexivity.
Defined.

(** A failing dispatch is one of the paths C5 covers: when the first member
    command raises, turn-on raises, the second member gets no command, the
    group is not marked on, and the flag is cleared all the same. *)
Example turn_on_first_dispatch_fails :
  let run := async_turn_on (failing_at 2) bare
               {| self := pair_of_lights; history := [] |} in
  run.1 = Raises (HostError "unreachable") ∧
  history run.2 =
    [GuardAssigned true;
     ServiceCall "light" "turn_on"
       {["entity_id" := PyStr "light.a"; "brightness" := PyInt 64]};
     GuardAssigned false] ∧
  _is_on (self run.2) = false ∧
  _applying_state (self run.2) = false.
Proof. repeat split; vm_compute; reflexivity. Qed.

(** What [_store_color_from_kwargs] leaves in the colour mode and in the
    field of each supplied attribute. *)
Lemma store_color_mode (kwargs : Kwargs) (g : OffsetLightGroup) :
  _color_mode (_store_color_from_kwargs kwargs g) =
    match last (supplied kwargs) with
    | Some (_, mode) => Some mode
    | None => _color_mode g
    end.
Proof.
  unfold _store_color_from_kwargs, store_if_present, supplied, color_checklist.
  simpl List.filter.
  destruct (kw kwargs !! ATTR_HS_COLOR), (kw kwargs !! ATTR_RGB_COLOR),
    (kw kwargs !! ATTR_RGBW_COLOR), (kw kwargs !! ATTR_RGBWW_COLOR),
    (kw kwargs !! ATTR_XY_COLOR), (kw kwargs !! ATTR_COLOR_TEMP); reflexivity.
Qed.

Lemma store_color_payload (kwargs : Kwargs) (g : OffsetLightGroup)
    (attr : string) (mode : ColorMode) (payload : pyval) :
  (attr, mode) ∈ color_checklist →
  kw kwargs !! attr = Some payload →
  color_field mode (_store_color_from_kwargs kwargs g) = payload.
Proof.
  intros Hin Hp. unfold color_checklist in Hin.
  repeat (apply elem_of_cons in Hin as [Hin|Hin]; [injection Hin as -> ->|]);
    [..|by apply elem_of_nil in Hin];
    unfold _store_color_from_kwargs, store_if_present; rewrite Hp;
    destruct (kw kwargs !! ATTR_HS_COLOR), (kw kwargs !! ATTR_RGB_COLOR),
      (kw kwargs !! ATTR_RGBW_COLOR), (kw kwargs !! ATTR_RGBWW_COLOR),
      (kw kwargs !! ATTR_XY_COLOR), (kw kwargs !! ATTR_COLOR_TEMP);
    reflexivity.
Qed.

Lemma async_turn_on_color hass kwargs w :
  let g := self (async_turn_on hass kwargs w).2 in
  _color_mode g = _color_mode (_store_color_from_kwargs kwargs (self w)) ∧
  ∀ mode, color_field mode g =
          color_field mode (_store_color_from_kwargs kwargs (self w)).
Proof.
  destruct (async_turn_on hass kwargs w) as [r w'] eqn:Hrun.
  apply async_turn_on_run in Hrun as (calls & completed & Hself & _).
  simpl. rewrite Hself. unfold taken_in.
  assert (Hstore : ∀ g1 g2,
            _color_mode g1 = _color_mode g2 →
            (∀ mode, color_field mode g1 = color_field mode g2) →
            _color_mode (_store_color_from_kwargs kwargs g1) =
              _color_mode (_store_color_from_kwargs kwargs g2) ∧
            ∀ mode, color_field mode (_store_color_from_kwargs kwargs g1) =
                    color_field mode (_store_color_from_kwargs kwargs g2)).
  { intros g1 g2 Hm Hf.
    pose proof (Hf HS) as Hhs. pose proof (Hf RGB) as Hrgb.
    pose proof (Hf RGBW) as Hrgbw. pose proof (Hf RGBWW) as Hrgbww.
    pose proof (Hf XY) as Hxy. pose proof (Hf COLOR_TEMP) as Hct.
    simpl in Hhs, Hrgb, Hrgbw, Hrgbww, Hxy, Hct.
    unfold _store_color_from_kwargs, store_if_present.
    destruct (kw kwargs !! ATTR_HS_COLOR), (kw kwargs !! ATTR_RGB_COLOR),
      (kw kwargs !! ATTR_RGBW_COLOR), (kw kwargs !! ATTR_RGBWW_COLOR),
      (kw kwargs !! ATTR_XY_COLOR), (kw kwargs !! ATTR_COLOR_TEMP);
      (split; [simpl; try done | intros []; simpl; done]). }
  destruct (Hstore
              (match kw_brightness kwargs with
               | Some b => set_master_brightness b (set_applying_state true (self w))
               | None => set_applying_state true (self w)
               end) (self w)) as [Hm Hf].
  { destruct (kw_brightness kwargs); done. }
  { intros mode. destruct (kw_brightness kwargs), mode; done. }
  split.
  - rewrite <- Hm. destruct completed; done.
  - intros mode. rewrite <- Hf. destruct completed, mode; done.
Qed.

(** C8. After a turn-on, whatever the host answered, the colour mode is that
    of the last entry of the checklist HS, RGB, RGBW, RGBWW, XY, COLOR_TEMP
    whose attribute was among the keyword arguments (and is what it was when
    none was); when exactly one was supplied, its payload is in the field of
    its mode and the colour mode is that mode. *)
Theorem color_mode_after_turn_on (hass : host) (kwargs : Kwargs) (w : World) :
  let g := self (async_turn_on hass kwargs w).2 in
  _color_mode g =
    match last (supplied kwargs) with
    | Some (_, mode) => Some mode
    | None => _color_mode (self w)
    end ∧
  ∀ attr mode payload,
    supplied kwargs = [(attr, mode)] →
    kw kwargs !! attr = Some payload →
    _color_mode g = Some mode ∧ color_field mode g = payload.
Proof.
  destruct (async_turn_on_color hass kwargs w) as [Hm Hf].
  cbv zeta. rewrite Hm, store_color_mode. split; [reflexivity|].
  intros attr mode payload Hone Hp. rewrite Hone. split; [reflexivity|].
  rewrite Hf. apply (store_color_payload kwargs (self w) attr); [|exact Hp].
  assert (Hin : In (attr, mode) (supplied kwargs)) by (rewrite Hone; left; done).
  apply List.filter_In in Hin as [Hin _]. by apply list_elem_of_In.
Qed.

(** Several attributes at once: the last of the checklist wins, here the
    colour temperature over the hue and saturation. *)
Example color_temp_wins_over_hs :
  let kwargs := {| kw_brightness := None;
                   kw := {[ATTR_COLOR_TEMP := PyInt 300;
                           ATTR_HS_COLOR := PyTuple [PyInt 10; PyInt 20]]} |} in
  let g := self (async_turn_on obliging kwargs
                   {| self := pair_of_lights; history := [] |}).2 in
  _color_mode g = Some COLOR_TEMP ∧ _color_temp g = PyInt 300 ∧
  _hs_color g = PyTuple [PyInt 10; PyInt 20].
Proof. repeat split; vm_compute; reflexivity. Qed.

(** C10. The brightness property is [None] when the group is off and the
    stored master brightness when it is on; in particular after a turn-off
    that returned it is [None] while the master brightness is still what it
    was. *)
Theorem brightness_hidden_when_off (g : OffsetLightGroup) :
  (_is_on g = false → brightness g = None) ∧
  (_is_on g = true → brightness g = Some (_master_brightness g)) ∧
  ∀ hass kwargs h,
    let run := async_turn_off hass kwargs {| self := g; history := h |} in
    run.1 = Returns () →
    brightness (self run.2) = None ∧
    _master_brightness (self run.2) = _master_brightness g.
Proof.
  unfold brightness. split; [by intros ->|]. split; [by intros ->|].
  intros hass kwargs h. rewrite async_turn_off_unfold. cbv zeta.
  destruct (hass _); [discriminate|]. destruct (hass _); [discriminate|].
  done.
Qed.

End Controller.

(** ** Passive resynchronization *)
Section Resynchronization.

Import Observed.

#[local] Set Warnings "-clear-no-such-hyp".

Variable states : gmap string State.

Lemma scan_member_skipped (acc : Scan) (entity_id : string) :
  available states entity_id = None → scan_member states acc entity_id = acc.
Proof.
  unfold available, scan_member. destruct (states !! entity_id) as [st|]; [|done].
  destruct (decide _); [done | discriminate].
Qed.

Lemma reports_on_available (entity_id : string) :
  reports_on states entity_id = true →
  ∃ st, available states entity_id = Some st ∧ states !! entity_id = Some st ∧
        state st = STATE_ON.
Proof.
  unfold reports_on, available. destruct (states !! entity_id) as [st|]; [|done].
  intros Hon%bool_decide_eq_true. exists st.
  destruct (decide _) as [[H|H]|_]; [rewrite Hon in H; discriminate H..|done].
Qed.

Lemma modes_fold (modes : list string) : ∀ seen : gset ColorMode,
  foldl (λ seen mode,
           match ColorMode_of_value mode with
           | Some c => seen ∪ {[c]}
           | None => seen
           end) seen modes
  = seen ∪ list_to_set (omap ColorMode_of_value modes).
Proof.
  induction modes as [|mode modes IH]; intros seen; simpl.
  - set_solver.
  - rewrite IH. destruct (ColorMode_of_value mode); simpl; set_solver.
Qed.

Lemma scan_member_available (acc : Scan) (entity_id : string) (st : State) :
  available states entity_id = Some st →
  on_states (scan_member states acc entity_id) =
    on_states acc ++ (if reports_on states entity_id then [entity_id] else []) ∧
  color_modes (scan_member states acc entity_id) =
    color_modes acc ∪ member_modes st ∧
  features (scan_member states acc entity_id) =
    N.lor (features acc) (member_features st).
Proof.
  unfold available, scan_member, reports_on, member_modes, member_features.
  destruct (states !! entity_id) as [st'|]; [|done].
  destruct (decide _); [done|]. intros [= ->]. simpl. repeat split.
  - destruct (bool_decide _); [done | by rewrite app_nil_r].
  - destruct (attr_supported_color_modes _); simpl; [apply modes_fold | set_solver].
  - destruct (attr_supported_features _) as [f|]; simpl; [|by rewrite N.lor_0_r].
    destruct (N.eqb_spec f 0) as [->|]; [by rewrite N.lor_0_r | done].
Qed.

(** What the loop has accumulated after the members [members]. *)
Lemma scan_fold (members : list string) : ∀ acc : Scan,
  let scan := foldl (scan_member states) acc members in
  on_states scan = on_states acc ++ List.filter (reports_on states) members ∧
  color_modes scan = color_modes acc ∪ ⋃ (member_modes <$> omap (available states) members) ∧
  features scan =
    N.lor (features acc)
      (foldr N.lor 0%N (member_features <$> omap (available states) members)).
Proof.
  induction members as [|entity_id members IH]; intros acc; simpl.
  - rewrite app_nil_r, N.lor_0_r. repeat split. set_solver.
  - destruct (IH (scan_member states acc entity_id)) as (-> & -> & ->).
    destruct (available states entity_id) as [st|] eqn:Hav.
    + destruct (scan_member_available acc entity_id st Hav) as (-> & -> & ->).
      simpl. rewrite <- app_assoc, N.lor_assoc.
      repeat split; [by destruct (reports_on states entity_id) | set_solver].
    + rewrite scan_member_skipped by done.
      destruct (reports_on states entity_id) eqn:Hon; [|done].
      apply reports_on_available in Hon as (st & Hst & _). congruence.
Qed.


Lemma resync_scan (self : OffsetLightGroup) :
  let scan := foldl (scan_member states) scan_start (entity_ids self) in
  on_states scan = List.filter (reports_on states) (entity_ids self) ∧
  color_modes scan = reported_modes states self ∧
  features scan = reported_features states self.
Proof.
  destruct (scan_fold (entity_ids self) scan_start) as (H1 & H2 & H3).
  cbv zeta. rewrite H1, H2, H3. unfold reported_modes, reported_features.
  simpl. rewrite N.lor_0_l. repeat split. set_solver.
Qed.

Lemma copy_color_frame (first_on : State) (g : OffsetLightGroup) :
  let g' := copy_color_from first_on g in
  _is_on g' = _is_on g ∧ _master_brightness g' = _master_brightness g ∧
  _supported_color_modes g' = _supported_color_modes g ∧
  _supported_features g' = _supported_features g.
Proof. done. Qed.

(** The fields a pass assigns whether or not a member is on. *)
Lemma resync_refreshed (self : OffsetLightGroup) :
  let g := _update_state_from_members states self in
  _is_on g = bool_decide (0 < length (List.filter (reports_on states) (entity_ids self)))%nat ∧
  _supported_color_modes g =
    (if decide (reported_modes states self = ∅) then {[BRIGHTNESS]}
     else reported_modes states self) ∧
  _supported_features g = reported_features states self ∧
  _master_brightness g = _master_brightness self.
Proof.
  cbv zeta. unfold _update_state_from_members.
  destruct (resync_scan self) as (Hon & Hmodes & Hfeat). cbv zeta in *.
  rewrite Hon, Hmodes, Hfeat.
  destruct (List.filter (reports_on states) (entity_ids self)) as [|first rest]; [done|].
  destruct (states !! first); done.
Qed.

(** C6. After a resynchronization pass the group is on exactly when some
    configured member has an observation whose state is on; a member whose
    observation is absent, unavailable or unknown leaves the pass's
    accumulators as they were, so it is never counted. *)
Theorem resync_on_iff_member_on (self : OffsetLightGroup) :
  (_is_on (_update_state_from_members states self) = true ↔
   ∃ entity_id st,
     entity_id ∈ entity_ids self ∧ states !! entity_id = Some st ∧
     state st = STATE_ON) ∧
  ∀ acc entity_id,
    (states !! entity_id = None ∨
     ∃ st, states !! entity_id = Some st ∧
           (state st = STATE_UNAVAILABLE ∨ state st = STATE_UNKNOWN)) →
    scan_member states acc entity_id = acc.
Proof.
  split.
  - destruct (resync_refreshed self) as (-> & _).
    rewrite bool_decide_eq_true. split.
    + intros Hlen.
      destruct (List.filter (reports_on states) (entity_ids self)) as [|entity_id rest] eqn:Hf;
        [simpl in Hlen; lia|].
      assert (Hin : In entity_id (List.filter (reports_on states) (entity_ids self)))
        by (rewrite Hf; left; done).
      apply List.filter_In in Hin as [Hin Hon].
      apply reports_on_available in Hon as (st & _ & Hst & Hstate).
      exists entity_id, st. by rewrite list_elem_of_In.
    + intros (entity_id & st & Hin & Hst & Hstate).
      assert (Hf : In entity_id (List.filter (reports_on states) (entity_ids self))).
      { apply List.filter_In. split; [by apply list_elem_of_In|].
        unfold reports_on. rewrite Hst. by apply bool_decide_eq_true. }
      destruct (List.filter (reports_on states) (entity_ids self)); [destruct Hf | simpl; lia].
  - intros acc entity_id H. apply scan_member_skipped. unfold available.
    destruct H as [->|(st & -> & H)]; [done|].
    destruct (decide _); [done | contradiction].
Qed.

(** C7. No resynchronization pass changes the stored master brightness;
    every pass sets the supported colour modes to the union of those the
    observed members report (brightness-only when there is none) and the
    supported features to the union of theirs; and a pass in which no member
    is on sets the group off and leaves the colour mode and the six colour
    payloads as they were. *)
Theorem resync_without_member_on (self : OffsetLightGroup) :
  let g := _update_state_from_members states self in
  _master_brightness g = _master_brightness self ∧
  _supported_color_modes g =
    (if decide (reported_modes states self = ∅) then {[BRIGHTNESS]}
     else reported_modes states self) ∧
  _supported_features g = reported_features states self ∧
  ((∀ entity_id st,
      entity_id ∈ entity_ids self → states !! entity_id = Some st →
      state st ≠ STATE_ON) →
   _is_on g = false ∧
   _color_mode g = _color_mode self ∧
   _hs_color g = _hs_color self ∧
   _rgb_color g = _rgb_color self ∧
   _rgbw_color g = _rgbw_color self ∧
   _rgbww_color g = _rgbww_color self ∧
   _xy_color g = _xy_color self ∧
   _color_temp g = _color_temp self).
Proof.
  destruct (resync_refreshed self) as (Hon & Hmodes & Hfeat & Hmaster).
  cbv zeta in *. split; [done|]. split; [done|]. split; [done|].
  intros Hnone.
  assert (Hf : List.filter (reports_on states) (entity_ids self) = []).
  { destruct (List.filter (reports_on states) (entity_ids self)) as [|entity_id rest] eqn:Hf;
      [done|].
    assert (Hin : In entity_id (List.filter (reports_on states) (entity_ids self)))
      by (rewrite Hf; left; done).
    apply List.filter_In in Hin as [Hin Hrep].
    apply reports_on_available in Hrep as (st & _ & Hst & Hstate).
    destruct (Hnone entity_id st); [by apply list_elem_of_In | done..]. }
  unfold _update_state_from_members.
  destruct (resync_scan self) as (Hscan & _). cbv zeta in Hscan.
  rewrite Hscan, Hf. done.
Qed.

(** The callback runs a pass exactly when the guard flag is not set. *)
Lemma listener_resynchronizes (hass : host) (w : World) :
  self (async_state_changed_listener hass states w).2 =
    if _applying_state (self w) then self w
    else _update_state_from_members states (self w).
Proof.
  unfold async_state_changed_listener, async_write_ha_state, external, update,
    get_self, mbind, M_bind, mret, M_ret.
  destruct (_applying_state (self w)); done.
Qed.

End Resynchronization.

(** Two members observed, neither on, one unavailable: the group goes off
    and keeps its colour, and takes its capabilities from the member that
    can be observed. *)
Example resync_all_off :
  let states : gmap string State :=
    {["light.a" := Observed.off_light; "light.b" := Observed.lost_light]} in
  let g := _update_state_from_members states
             (Observed.lit (Member.single OFFSET_TYPE_ABSOLUTE 0 1 100)) in
  _is_on g = false ∧ _color_mode g = Some HS ∧
  _hs_color g = PyTuple [PyInt 30; PyInt 80] ∧
  _supported_color_modes g = {[HS; COLOR_TEMP]} ∧
  _supported_features g = 32%N ∧ _master_brightness g = 128.
Proof. repeat split; vm_compute; reflexivity. Qed.

(** ** The YAML form of a configuration *)
Section YamlForm.

Import ConfigFlow.

Lemma all_chars_app (p : ascii → bool) (s t : string) :
  all_chars p (s +:+ t) = all_chars p s && all_chars p t.
Proof.
  induction s as [|c s IH]; simpl; [done|]. rewrite IH. by destruct (p c).
Qed.

Lemma all_chars_impl (p q : ascii → bool) (s : string) :
  (∀ c, p c = true → q c = true) →
  all_chars p s = true → all_chars q s = true.
Proof.
  intros Hpq. induction s as [|c s IH]; simpl; [done|].
  intros [Hc Hs]%andb_prop. rewrite (Hpq c Hc). auto.
Qed.

Lemma plain_char_not_newline (c : ascii) :
  is_plain_char c = true → not_newline c = true.
Proof. destruct c as [[] [] [] [] [] [] [] []]; vm_compute; done. Qed.

Lemma digit_not_newline (c : ascii) :
  is_digit c || Ascii.eqb c "-" = true → not_newline c = true.
Proof. destruct c as [[] [] [] [] [] [] [] []]; vm_compute; done. Qed.

Lemma split_on_line (x : string) :
  all_chars not_newline x = true → split_on "010" x = [x].
Proof.
  induction x as [|c x IH]; simpl; [done|].
  intros [Hc Hx]%andb_prop. unfold not_newline in Hc.
  destruct (Ascii.eqb c "010"); [done|]. by rewrite IH.
Qed.

Lemma split_on_cons (x rest : string) :
  all_chars not_newline x = true →
  split_on "010" (x +:+ newline +:+ rest) = x :: split_on "010" rest.
Proof.
  induction x as [|c x IH]; simpl; [done|].
  intros [Hc Hx]%andb_prop. unfold not_newline in Hc.
  destruct (Ascii.eqb c "010"); [done|]. by rewrite IH.
Qed.

Lemma split_concat (line : string) (lines : list string) :
  Forall (λ l, all_chars not_newline l = true) (line :: lines) →
  split_on "010" (String.concat newline (line :: lines)) = line :: lines.
Proof.
  revert line. induction lines as [|next lines IH]; intros line Hall.
  - simpl. apply split_on_line. by inversion Hall.
  - inversion Hall as [|? ? Hline Hrest]; subst.
    change (String.concat newline (line :: next :: lines))
      with (line +:+ newline +:+ String.concat newline (next :: lines)).
    rewrite split_on_cons by done. by rewrite IH.
Qed.

(** The digits of a number. *)
Lemma string_of_uint_digits (d : Decimal.uint) :
  all_chars is_digit (NilEmpty.string_of_uint d) = true.
Proof. induction d; simpl; auto. Qed.

Lemma string_of_uint_first (d : Decimal.uint) :
  d ≠ Decimal.Nil →
  ∃ c rest, NilEmpty.string_of_uint d = String c rest ∧ is_digit c = true.
Proof. destruct d; [done|..]; intros _; simpl; eauto. Qed.

Lemma to_int_not_nil (z : Z) :
  Z.to_int z ≠ Decimal.Pos Decimal.Nil ∧ Z.to_int z ≠ Decimal.Neg Decimal.Nil.
Proof.
  destruct z as [|p|p]; simpl; split; try discriminate;
    intros [= H]; by apply Unsigned.to_uint_nonnil in H.
Qed.

(** [str] of an int starts with a digit or a minus sign and goes on with
    digits. *)
Lemma str_int_shape (z : Z) :
  ∃ c rest, str_int z = String c rest ∧
            is_digit c || Ascii.eqb c "-" = true ∧
            all_chars is_digit rest = true.
Proof.
  unfold str_int. destruct z as [|p|p]; simpl.
  - by exists "0"%char, EmptyString.
  - pose proof (Unsigned.to_uint_nonnil p) as Hnil.
    pose proof (string_of_uint_digits (Pos.to_uint p)) as Hd.
    unfold NilZero.string_of_uint.
    destruct (Pos.to_uint p) eqn:E; [done|..]; simpl in *;
      eexists _, _; (split; [reflexivity|]); split; done.
  - pose proof (Unsigned.to_uint_nonnil p) as Hnil.
    pose proof (string_of_uint_digits (Pos.to_uint p)) as Hd.
    unfold NilZero.string_of_uint.
    destruct (Pos.to_uint p) eqn:E; [done|..];
      exists "-"%char; eexists; (split; [reflexivity|]); split; done.
Qed.

Lemma str_int_no_newline (z : Z) : all_chars not_newline (str_int z) = true.
Proof.
  destruct (str_int_shape z) as (c & rest & -> & Hc & Hrest). simpl.
  rewrite (digit_not_newline c Hc). simpl.
  eapply all_chars_impl; [|exact Hrest].
  intros d Hd. apply digit_not_newline. by rewrite Hd.
Qed.

Lemma decimal_str_int (z : Z) : decimal (str_int z) = Some z.
Proof.
  unfold decimal, str_int. destruct (to_int_not_nil z) as [H1 H2].
  rewrite NilZero.isi by done. rewrite of_to. by rewrite String.eqb_refl.
Qed.

(** A scalar whose first character is a digit or a minus sign is none of
    the null and boolean words. *)
Lemma number_is_no_word (c : ascii) (rest : string) :
  is_digit c || Ascii.eqb c "-" = true →
  is_word null_words (String c rest) = false ∧
  is_word true_words (String c rest) = false ∧
  is_word false_words (String c rest) = false.
Proof.
  intros Hc. unfold is_word, null_words, true_words, false_words. simpl.
  repeat match goal with
  | |- context [Ascii.eqb c ?l] =>
      destruct (Ascii.eqb_spec c l) as [->|_]; [by vm_compute in Hc|]
  end.
  done.
Qed.

Lemma resolve_plain_int (z : Z) : resolve_plain (str_int z) = Some (PyInt z).
Proof.
  unfold resolve_plain. rewrite decimal_str_int.
  destruct (str_int_shape z) as (c & rest & -> & Hc & _).
  destruct (number_is_no_word c rest Hc) as (-> & -> & ->). done.
Qed.

Lemma letter_is_no_digit (c : ascii) (rest : string) :
  is_letter c = true → NilZero.int_of_string (String c rest) = None.
Proof.
  intros Hc. unfold NilZero.int_of_string, NilZero.uint_of_string.
  simpl NilEmpty.uint_of_string.
  destruct c as [[] [] [] [] [] [] [] []]; try discriminate Hc;
    simpl; by destruct (NilEmpty.uint_of_string rest).
Qed.

Lemma resolve_plain_string (s : string) :
  loads_as_string s = true → resolve_plain s = Some (PyStr s).
Proof.
  intros Hs. unfold resolve_plain. rewrite Hs.
  unfold loads_as_string in Hs. destruct s as [|c rest]; [done|].
  apply andb_prop in Hs as [Hs Hwords].
  apply andb_prop in Hs as [Hs _]. apply andb_prop in Hs as [Hc _].
  apply negb_true_iff in Hwords.
  apply orb_false_elim in Hwords as [Hwords ->].
  apply orb_false_elim in Hwords as [-> ->].
  unfold decimal. by rewrite letter_is_no_digit.
Qed.

Lemma loads_as_string_no_newline (s : string) :
  loads_as_string s = true → all_chars not_newline s = true.
Proof.
  unfold loads_as_string. destruct s as [|c rest]; [done|].
  intros Hs. apply andb_prop in Hs as [Hs _]. apply andb_prop in Hs as [Hs _].
  apply andb_prop in Hs as [_ Hplain].
  eapply all_chars_impl; [apply plain_char_not_newline | exact Hplain].
Qed.

Lemma config_to_yaml_lines (config : GroupConfig) :
  config_to_yaml config = String.concat newline (config_lines config).
Proof.
  unfold config_to_yaml, config_lines. f_equal.
  generalize ["name: " +:+ name config; "offset_type: " +:+ offset_type config;
              "lights:"].
  induction (lights config) as [|light rest IH]; intros init; simpl.
  - by rewrite app_nil_r.
  - rewrite IH. by rewrite <- app_assoc.
Qed.

Lemma substring_all (s : string) : substring 0 (String.length s) s = s.
Proof. induction s as [|c s IH]; simpl; [done|]. by rewrite IH. Qed.

Lemma drop_chars_4 (a b c d : ascii) (s : string) :
  drop_chars 4 (String a (String b (String c (String d s)))) = s.
Proof. unfold drop_chars. simpl. rewrite Nat.sub_0_r. apply substring_all. Qed.

Lemma add_to_last_snoc (entry : string * pyval)
    (items : list (list (string * pyval))) (item : list (string * pyval)) :
  add_to_last entry (items ++ [item])
  = Some (items ++ [dict_set entry.1 entry.2 item]).
Proof.
  unfold add_to_last. rewrite reverse_snoc. by rewrite reverse_involutive.
Qed.

Lemma plain_char_not_colon (c : ascii) :
  is_plain_char c = true → Ascii.eqb c ":" = false.
Proof. destruct c as [[] [] [] [] [] [] [] []]; vm_compute; done. Qed.

Lemma cut_at_colon_key (key rest : string) :
  all_chars is_plain_char key = true →
  cut_at_colon (key +:+ ":" +:+ rest) = Some (key, rest).
Proof.
  induction key as [|c key IH]; simpl; [done|].
  intros [Hc Hkey]%andb_prop. rewrite (plain_char_not_colon c Hc).
  by rewrite IH.
Qed.

Lemma loads_as_string_plain (s : string) :
  loads_as_string s = true → all_chars is_plain_char s = true.
Proof.
  unfold loads_as_string. destruct s as [|c rest]; [done|].
  intros Hs. apply andb_prop in Hs as [Hs _]. apply andb_prop in Hs as [Hs _].
  by apply andb_prop in Hs as [_ Hplain].
Qed.

(** A [key: scalar] entry loads to the key and the value of the scalar. *)
Lemma load_entry_scalar (key scalar : string) (value : pyval) :
  loads_as_string key = true →
  resolve_plain scalar = Some value →
  load_entry (key +:+ ": " +:+ scalar) = Some (key, value).
Proof.
  intros Hkey Hvalue. unfold load_entry.
  change (key +:+ ": " +:+ scalar) with (key +:+ ":" +:+ String " " scalar).
  rewrite cut_at_colon_key by by apply loads_as_string_plain.
  by rewrite Hkey, Hvalue.
Qed.

Lemma prefix_nil (s : string) : String.prefix "" s = true.
Proof. by destruct s. Qed.

Lemma load_item_line (t : list (string * pyval)) (key : string)
    (items : list (list (string * pyval))) (text : string) :
  load_line (Some {| top := t; pending := Some (key, items) |})
    ("  - " +:+ text)
  = (entry ← load_entry text;
     Some {| top := t; pending := Some (key, items ++ [[entry]]) |}).
Proof.
  unfold load_line. simpl String.prefix. cbv iota. simpl mbind.
  change ("  - " +:+ text)
    with (String " " (String " " (String "-" (String " " text)))).
  rewrite drop_chars_4. simpl. by rewrite prefix_nil.
Qed.

Lemma load_field_line (t : list (string * pyval)) (key : string)
    (items : list (list (string * pyval))) (item : list (string * pyval))
    (text : string) :
  load_line (Some {| top := t; pending := Some (key, items ++ [item]) |})
    ("    " +:+ text)
  = (entry ← load_entry text;
     Some {| top := t;
             pending := Some (key, items ++ [dict_set entry.1 entry.2 item]) |}).
Proof.
  unfold load_line. simpl String.prefix. cbv iota. simpl mbind.
  change ("    " +:+ text)
    with (String " " (String " " (String " " (String " " text)))).
  rewrite drop_chars_4. simpl. rewrite prefix_nil.
  destruct (load_entry text) as [entry|]; [|done].
  simpl. by rewrite add_to_last_snoc.
Qed.

(** The four lines of a light add its mapping to the sequence being read. *)
Lemma load_light (light : LightEntry) (t : list (string * pyval))
    (key : string) (items : list (list (string * pyval))) :
  loads_as_string (entity_id light) = true →
  foldl load_line (Some {| top := t; pending := Some (key, items) |})
    (light_lines light)
  = Some {| top := t; pending := Some (key, items ++ [light_entries light]) |}.
Proof.
  intros Hid. unfold light_lines. cbn [foldl].
  change ("  - entity_id: " +:+ entity_id light)
    with ("  - " +:+ ("entity_id" +:+ ": " +:+ entity_id light)).
  change ("    offset: " +:+ str_int (offset light))
    with ("    " +:+ ("offset" +:+ ": " +:+ str_int (offset light))).
  change ("    min_brightness: " +:+ str_int (min_brightness light))
    with ("    " +:+ ("min_brightness" +:+ ": " +:+ str_int (min_brightness light))).
  change ("    max_brightness: " +:+ str_int (max_brightness light))
    with ("    " +:+ ("max_brightness" +:+ ": " +:+ str_int (max_brightness light))).
  rewrite load_item_line.
  rewrite (load_entry_scalar "entity_id" _ (PyStr (entity_id light)))
    by first [by apply resolve_plain_string | reflexivity].
  cbn [mbind option_bind].
  rewrite load_field_line.
  rewrite (load_entry_scalar "offset" _ (PyInt (offset light)))
    by first [apply resolve_plain_int | reflexivity].
  cbn [mbind option_bind].
  rewrite load_field_line.
  rewrite (load_entry_scalar "min_brightness" _ (PyInt (min_brightness light)))
    by first [apply resolve_plain_int | reflexivity].
  cbn [mbind option_bind].
  rewrite load_field_line.
  rewrite (load_entry_scalar "max_brightness" _ (PyInt (max_brightness light)))
    by first [apply resolve_plain_int | reflexivity].
  reflexivity.
Qed.

Lemma load_lights (ls : list LightEntry) (t : list (string * pyval))
    (key : string) : ∀ items,
  Forall (λ l, loads_as_string (entity_id l) = true) ls →
  foldl load_line (Some {| top := t; pending := Some (key, items) |})
    (flat_map light_lines ls)
  = Some {| top := t;
            pending := Some (key, items ++ (light_entries <$> ls)) |}.
Proof.
  induction ls as [|l ls IH]; intros items Hall.
  - simpl. by rewrite app_nil_r.
  - inversion Hall as [|? ? Hl Hls]; subst.
    change (flat_map light_lines (l :: ls))
      with (light_lines l ++ flat_map light_lines ls).
    rewrite foldl_app, load_light by done.
    rewrite IH by done. by rewrite <- app_assoc.
Qed.

Lemma letter_first_not_indented (key rest : string) :
  loads_as_string key = true → String.prefix " " (key +:+ rest) = false.
Proof.
  unfold loads_as_string. destruct key as [|c key]; [done|].
  intros Hs. repeat apply andb_prop in Hs as [Hs _].
  destruct c as [[] [] [] [] [] [] [] []]; first [by vm_compute in Hs | done].
Qed.

Lemma not_indented (line : string) :
  String.prefix " " line = false →
  String.prefix "  - " line = false ∧ String.prefix "    " line = false.
Proof.
  destruct line as [|c line]; [done|].
  destruct c as [[] [] [] [] [] [] [] []]; intros H;
    first [by split | by destruct line].
Qed.

(** A top-level [key: scalar] line closes the value being read and sets
    the key. *)
Lemma load_top_scalar (st : Loader) (key scalar : string) (value : pyval) :
  loads_as_string key = true →
  resolve_plain scalar = Some value →
  load_line (Some st) (key +:+ ": " +:+ scalar)
  = Some {| top := dict_set key value (close_pending st); pending := None |}.
Proof.
  intros Hkey Hvalue. unfold load_line. simpl mbind.
  pose proof (letter_first_not_indented key (": " +:+ scalar) Hkey) as Hin.
  destruct (not_indented _ Hin) as [-> ->]. rewrite Hin.
  rewrite (load_entry_scalar key scalar value) by done.
  change (key +:+ ": " +:+ scalar) with (key +:+ ":" +:+ String " " scalar).
  rewrite cut_at_colon_key by by apply loads_as_string_plain.
  simpl. by rewrite Hkey.
Qed.

(** A top-level [key:] line closes the value being read and opens the
    key's. *)
Lemma load_top_open (st : Loader) (key : string) :
  loads_as_string key = true →
  load_line (Some st) (key +:+ ":")
  = Some {| top := close_pending st; pending := Some (key, []) |}.
Proof.
  intros Hkey. unfold load_line. simpl mbind.
  pose proof (letter_first_not_indented key ":" Hkey) as Hin.
  destruct (not_indented _ Hin) as [-> ->]. rewrite Hin.
  change (key +:+ ":") with (key +:+ ":" +:+ "").
  rewrite cut_at_colon_key by by apply loads_as_string_plain.
  simpl. by rewrite Hkey.
Qed.

Lemma validate_light_dict (light : LightEntry) (index : nat) :
  String.prefix "light." (entity_id light) = true →
  _validate_light_entry (PyDict (light_entries light)) index
  = Returns (inl (light_dict light)).
Proof. intros Hp. unfold _validate_light_entry. simpl. by rewrite Hp. Qed.

Lemma validate_light_dicts (ls : list LightEntry) : ∀ index lights_config,
  Forall (λ l, String.prefix "light." (entity_id l) = true) ls →
  validate_lights (PyDict <$> (light_entries <$> ls)) index lights_config
  = Returns (inl (lights_config ++ (light_dict <$> ls))).
Proof.
  induction ls as [|l ls IH]; intros index lights_config Hall.
  - simpl. by rewrite app_nil_r.
  - inversion Hall as [|? ? Hl Hls]; subst.
    cbn [fmap list_fmap validate_lights].
    rewrite validate_light_dict by done. cbn [mbind outcome_bind].
    rewrite IH by done. by rewrite <- app_assoc.
Qed.

Lemma close_pending_items (t : list (string * pyval)) (key : string)
    (items : list (list (string * pyval))) :
  items ≠ [] →
  close_pending {| top := t; pending := Some (key, items) |}
  = dict_set key (PyList (PyDict <$> items)) t.
Proof. by destruct items. Qed.

Lemma line_no_newline (prefix text : string) :
  all_chars not_newline prefix = true →
  all_chars not_newline text = true →
  all_chars not_newline (prefix +:+ text) = true.
Proof. intros H1 H2. by rewrite all_chars_app, H1, H2. Qed.

Lemma light_lines_no_newline (ls : list LightEntry) :
  Forall (λ l, loads_as_string (entity_id l) = true) ls →
  Forall (λ l, all_chars not_newline l = true) (flat_map light_lines ls).
Proof.
  induction 1 as [|l ls Hid _ IH]; [apply List.Forall_nil|].
  change (flat_map light_lines (l :: ls))
    with (light_lines l ++ flat_map light_lines ls).
  apply Forall_app. split; [|exact IH].
  repeat first [apply List.Forall_cons | apply List.Forall_nil];
    (apply line_no_newline;
     [reflexivity
     | first [by apply loads_as_string_no_newline
             | apply str_int_no_newline]]).
Qed.

Lemma config_lines_no_newline (config : GroupConfig) :
  plain_config config →
  Forall (λ l, all_chars not_newline l = true) (config_lines config).
Proof.
  intros (Hname & Htype & _ & Hlights). unfold config_lines.
  apply Forall_app. split.
  - repeat first [apply List.Forall_cons | apply List.Forall_nil];
      first [apply line_no_newline;
             [reflexivity | by apply loads_as_string_no_newline]
            | reflexivity].
  - apply light_lines_no_newline.
    eapply Forall_impl; [exact Hlights | by intros l [? _]].
Qed.

(** X20. The round trip that does hold: a plain configuration (name, offset
    type and entity ids are plain scalars that load as strings; at least
    two lights, their entity ids starting with [light.]) comes back from
    [yaml_to_config (config_to_yaml config)] as it went in, whatever its
    integer offsets and bounds. *)
Lemma yaml_round_trip_plain (config : GroupConfig) :
  plain_config config →
  yaml_to_config (config_to_yaml config)
  = Some (Returns (inl (config_dict config))).
Proof.
  intros Hplain. pose proof (config_lines_no_newline config Hplain) as Hnl.
  destruct Hplain as (Hname & Htype & Hlen & Hlights).
  unfold yaml_to_config, safe_load. rewrite config_to_yaml_lines.
  unfold config_lines in *. simpl app in *. rewrite split_concat by done.
  cbn [foldl].
  change ("name: " +:+ name config) with ("name" +:+ ": " +:+ name config).
  change ("offset_type: " +:+ offset_type config)
    with ("offset_type" +:+ ": " +:+ offset_type config).
  change "lights:" with ("lights" +:+ ":").
  rewrite (load_top_scalar _ "name" _ (PyStr (name config)))
    by first [by apply resolve_plain_string | reflexivity].
  rewrite (load_top_scalar _ "offset_type" _ (PyStr (offset_type config)))
    by first [by apply resolve_plain_string | reflexivity].
  rewrite load_top_open by reflexivity.
  rewrite load_lights
    by (eapply Forall_impl; [exact Hlights | by intros l [? _]]).
  cbn [mbind option_bind fmap option_fmap option_map].
  rewrite close_pending_items
    by (destruct (lights config); [simpl in Hlen; lia | done]).
  simpl app.
  unfold yaml_to_config_loaded. simpl dict_set. simpl dict_get.
  cbv beta iota.
  replace (length (PyDict <$> (light_entries <$> lights config)) <? 2)%nat
    with false
    by (symmetry; apply Nat.ltb_ge; by rewrite !length_fmap).
  rewrite validate_light_dicts
    by (eapply Forall_impl; [exact Hlights | by intros l [_ ?]]).
  reflexivity.
Qed.

Lemma yaml_round_trip_plain_witness :
  plain_config (named "Living Room") ∧
  yaml_to_config (config_to_yaml (named "Living Room"))
  = Some (Returns (inl (config_dict (named "Living Room")))).
Proof.
  assert (H : plain_config (named "Living Room"))
    by (repeat split; repeat constructor).
  split; [exact H | exact (yaml_round_trip_plain _ H)].
Defined.

(** A name that YAML reads as the string it is comes back unchanged, with
    the rest of the configuration. *)
Example yaml_round_trip_living_room :
  yaml_to_config (config_to_yaml (named "Living Room"))
  = Some (Returns (inl (config_dict (named "Living Room")))).
Proof. vm_compute. reflexivity. Qed.

(** C9 fails on the code. A group named 123 is written as the line
    [name: 123], because [config_to_yaml] quotes nothing, and YAML loads
    that scalar as the integer 123: the configuration that comes back has
    another name than the one that went in. *)
Theorem yaml_round_trip_numeric_name :
  yaml_to_config (config_to_yaml (named "123"))
  = Some (Returns (inl (PyDict
      [(CONF_NAME, PyInt 123);
       (CONF_OFFSET_TYPE, PyStr OFFSET_TYPE_ABSOLUTE);
       (CONF_LIGHTS, PyList (light_dict <$> lights (named "123")))]))) ∧
  yaml_to_config (config_to_yaml (named "123"))
  ≠ Some (Returns (inl (config_dict (named "123")))).
Proof. split; vm_compute; [reflexivity | discriminate]. Qed.

(** The same loss for a name that is one of YAML's boolean words. *)
Example yaml_round_trip_boolean_name :
  ∃ lights_config,
    yaml_to_config (config_to_yaml (named "Off"))
    = Some (Returns (inl (PyDict
        [(CONF_NAME, PyBool false);
         (CONF_OFFSET_TYPE, PyStr OFFSET_TYPE_ABSOLUTE);
         (CONF_LIGHTS, lights_config)]))).
Proof. eexists. vm_compute. reflexivity. Qed.

End YamlForm.

(** ** Order and range of the brightness mapping *)
Section MappingOrder.

Import Member Mapping.

Lemma ascends_lookup (results : list (outcome Z)) :
  ascends results = true →
  ∀ (i j : nat) oi oj,
    (i ≤ j)%nat → results !! i = Some oi → results !! j = Some oj →
    ∃ a b, oi = Returns a ∧ oj = Returns b ∧ a ≤ b.
Proof.
  induction results as [|first rest IH]; intros Hasc i j oi oj Hij Hi Hj;
    [done|].
  destruct first as [a|e]; [|done].
  assert (Hrest : ascends rest = true ∧
            ∀ k ok, rest !! k = Some ok → ∃ b, ok = Returns b ∧ a ≤ b).
  { clear i j oi oj Hij Hi Hj. destruct rest as [|[b|e] rest']; [done| |done].
    simpl in Hasc. apply andb_prop in Hasc as [Hab Hasc].
    apply Z.leb_le in Hab. split; [done|]. intros k ok Hk.
    destruct (IH Hasc 0%nat k (Returns b) ok) as (b' & c & [= <-] & -> & Hbc);
      [lia | done | done |]. exists c. split; [done | lia]. }
  destruct Hrest as [Hasc' Hfirst].
  destruct i as [|i], j as [|j]; simpl in Hi, Hj.
  - injection Hi as <-. injection Hj as <-. exists a, a. done.
  - injection Hi as <-. destruct (Hfirst j oj Hj) as (b & -> & Hab).
    by exists a, b.
  - lia.
  - apply (IH Hasc' i j); [lia | done..].
Qed.

Lemma rows_ascend :
  forallb (λ relative, forallb (λ o, ascends (row relative o)) (seqZ (-100) 201))
    [false; true] = true.
Proof. vm_cast_no_check (eq_refl true). Qed.

Lemma columns_ascend :
  forallb (λ relative, forallb (λ m, ascends (column relative m)) (seqZ 0 256))
    [false; true] = true.
Proof. vm_cast_no_check (eq_refl true). Qed.

Lemma each_mode (P : bool → bool) :
  forallb P [false; true] = true → ∀ relative, P relative = true.
Proof.
  simpl. intros [H1 [H2 _]%andb_prop]%andb_prop. by intros [].
Qed.

Lemma each_in_range (P : Z → bool) (first count : Z) :
  forallb P (seqZ first count) = true →
  ∀ z, first ≤ z < first + count → P z = true.
Proof.
  intros Hall z Hz. rewrite forallb_forall in Hall. apply Hall.
  apply list_elem_of_In, elem_of_seqZ. lia.
Qed.

(** The target returns on the whole range, and does not decrease when the
    master brightness grows. *)
Lemma target_ascends_in_master (relative : bool) (offset m m' : Z) :
  -100 ≤ offset ≤ 100 → 0 ≤ m → m ≤ m' → m' ≤ 255 →
  ∃ t t', target relative m offset = Returns t ∧
          target relative m' offset = Returns t' ∧ t ≤ t'.
Proof.
  intros Ho Hm Hmm Hm'.
  pose proof (each_in_range _ _ _ (each_mode _ rows_ascend relative) offset)
    as Hrow.
  specialize (Hrow ltac:(lia)).
  apply (ascends_lookup _ Hrow (Z.to_nat m) (Z.to_nat m')); [lia|..];
    unfold row; rewrite list_lookup_fmap, lookup_seqZ_lt by lia; simpl;
    do 2 f_equal; lia.
Qed.

(** The target does not decrease when the offset grows. *)
Lemma target_ascends_in_offset (relative : bool) (m offset offset' : Z) :
  0 ≤ m ≤ 255 → -100 ≤ offset → offset ≤ offset' → offset' ≤ 100 →
  ∃ t t', target relative m offset = Returns t ∧
          target relative m offset' = Returns t' ∧ t ≤ t'.
Proof.
  intros Hm Ho Hoo Ho'.
  pose proof (each_in_range _ _ _ (each_mode _ columns_ascend relative) m)
    as Hcol.
  specialize (Hcol ltac:(lia)).
  apply (ascends_lookup _ Hcol (Z.to_nat (offset + 100))
           (Z.to_nat (offset' + 100))); [lia|..];
    unfold column; rewrite list_lookup_fmap, lookup_seqZ_lt by lia; simpl;
    do 2 f_equal; lia.
Qed.

(** In relative mode an offset of zero leaves the master brightness as it
    is. *)
Lemma relative_target_zero (m : Z) :
  0 ≤ m ≤ 255 → relative_target m 0 = Returns m.
Proof.
  intros Hm.
  assert (Hall : forallb (λ m, match relative_target m 0 with
                               | Returns t => t =? m
                               | Raises _ => false
                               end) (seqZ 0 256) = true)
    by (vm_cast_no_check (eq_refl true)).
  pose proof (each_in_range _ _ _ Hall m ltac:(lia)) as H. cbv beta in H.
  destruct (relative_target m 0); [|discriminate H].
  f_equal. by apply Z.eqb_eq.
Qed.

Lemma calculate_on_range (self : OffsetLightGroup) (entity_id : string)
    (m t : Z) :
  percentages self entity_id →
  target (is_relative self) m (offset self entity_id) = Returns t →
  _calculate_light_brightness self entity_id m
  = Returns (Z.max (min_pct self entity_id * 255 / 100)
               (Z.min (max_pct self entity_id * 255 / 100) t)).
Proof.
  intros [Hmin Hmax] Ht. rewrite calculate_unfold.
  rewrite !bound_255_exact, !bound_floor_Z by done.
  unfold target, is_relative in Ht.
  destruct (decide (_offset_type self = OFFSET_TYPE_RELATIVE)) as [E|E].
  - rewrite bool_decide_eq_true_2 in Ht by done. by rewrite Ht.
  - rewrite bool_decide_eq_false_2 in Ht by done. by rewrite Ht.
Qed.

(** X1. Within the configured ranges the mapping returns, and what it returns
    lies between the member's two bounds, hence in 2..255: a member of a
    group that is turned on is never sent brightness 0 or 1. *)
Theorem brightness_within_bounds (self : OffsetLightGroup)
    (entity_id : string) (m : Z) :
  0 ≤ m ≤ 255 →
  -100 ≤ offset self entity_id ≤ 100 →
  1 ≤ min_pct self entity_id →
  min_pct self entity_id ≤ max_pct self entity_id →
  max_pct self entity_id ≤ 100 →
  ∃ r, _calculate_light_brightness self entity_id m = Returns r ∧
       min_pct self entity_id * 255 / 100 ≤ r ≤ max_pct self entity_id * 255 / 100 ∧
       2 ≤ r ≤ 255.
Proof.
  intros Hm Ho Hmin Hle Hmax.
  destruct (target_ascends_in_master (is_relative self) (offset self entity_id)
              m m) as (t & _ & Ht & _ & _); [lia..|].
  rewrite (calculate_on_range self entity_id m t) by (done || split; lia).
  eexists. split; [reflexivity|].
  assert (2 ≤ min_pct self entity_id * 255 / 100)
    by (apply Z.div_le_lower_bound; lia).
  assert (max_pct self entity_id * 255 / 100 ≤ 255)
    by (apply Z.div_le_upper_bound; lia).
  assert (min_pct self entity_id * 255 / 100 ≤ max_pct self entity_id * 255 / 100)
    by (apply Z.div_le_mono; lia).
  lia.
Qed.

Lemma brightness_within_bounds_witness :
  ∃ r, _calculate_light_brightness (two_members OFFSET_TYPE_ABSOLUTE)
         "light.a" 255 = Returns r ∧
       10 * 255 / 100 ≤ r ≤ 80 * 255 / 100 ∧ 2 ≤ r ≤ 255.
Proof.
  apply (brightness_within_bounds (two_members OFFSET_TYPE_ABSOLUTE)
           "light.a" 255); bounds_by_evaluation.
Defined.

(** X2. Inverted bounds (minimum above maximum, which nothing validates) pin
    the member to its minimum bound, whatever the master brightness and the
    offset: the outer [max] wins. *)
Theorem inverted_bounds_pin_to_minimum (self : OffsetLightGroup)
    (entity_id : string) (m : Z) :
  0 ≤ m ≤ 255 →
  -100 ≤ offset self entity_id ≤ 100 →
  1 ≤ max_pct self entity_id →
  max_pct self entity_id < min_pct self entity_id →
  min_pct self entity_id ≤ 100 →
  _calculate_light_brightness self entity_id m
  = Returns (min_pct self entity_id * 255 / 100).
Proof.
  intros Hm Ho Hmax Hlt Hmin.
  destruct (target_ascends_in_master (is_relative self) (offset self entity_id)
              m m) as (t & _ & Ht & _ & _); [lia..|].
  rewrite (calculate_on_range self entity_id m t) by (done || split; lia).
  f_equal.
  assert (max_pct self entity_id * 255 / 100 ≤ min_pct self entity_id * 255 / 100)
    by (apply Z.div_le_mono; lia).
  lia.
Qed.

Lemma inverted_bounds_pin_to_minimum_witness :
  _calculate_light_brightness (single OFFSET_TYPE_RELATIVE 50 60 40) "light.a" 255
  = Returns (60 * 255 / 100).
Proof.
  apply (inverted_bounds_pin_to_minimum (single OFFSET_TYPE_RELATIVE 50 60 40)
           "light.a" 255); bounds_by_evaluation.
Defined.

(** X3. The mapping is monotone in the master brightness: raising the master
    never dims a member, in either mode and with the bounds in either
    order. *)
Theorem brightness_ascends_with_master (self : OffsetLightGroup)
    (entity_id : string) (m m' : Z) :
  percentages self entity_id →
  -100 ≤ offset self entity_id ≤ 100 →
  0 ≤ m → m ≤ m' → m' ≤ 255 →
  ∃ r r', _calculate_light_brightness self entity_id m = Returns r ∧
          _calculate_light_brightness self entity_id m' = Returns r' ∧
          r ≤ r'.
Proof.
  intros Hp Ho Hm Hmm Hm'.
  destruct (target_ascends_in_master (is_relative self) (offset self entity_id)
              m m') as (t & t' & Ht & Ht' & Hle); [lia..|].
  rewrite (calculate_on_range self entity_id m t),
    (calculate_on_range self entity_id m' t') by done.
  eexists _, _. split; [reflexivity|]. split; [reflexivity|]. lia.
Qed.

Lemma brightness_ascends_with_master_witness :
  ∃ r r', _calculate_light_brightness (two_members OFFSET_TYPE_ABSOLUTE)
            "light.b" 14 = Returns r ∧
          _calculate_light_brightness (two_members OFFSET_TYPE_ABSOLUTE)
            "light.b" 15 = Returns r' ∧
          r ≤ r'.
Proof.
  apply (brightness_ascends_with_master (two_members OFFSET_TYPE_ABSOLUTE)
           "light.b" 14 15); first [lia | bounds_by_evaluation].
Defined.

(** X4. The mapping is monotone in the offset: of two members with the same
    bounds, the one with the larger offset is never the dimmer one. *)
Theorem brightness_ordered_by_offset (self : OffsetLightGroup)
    (dimmer brighter : string) (m : Z) :
  percentages self dimmer →
  min_pct self brighter = min_pct self dimmer →
  max_pct self brighter = max_pct self dimmer →
  -100 ≤ offset self dimmer →
  offset self dimmer ≤ offset self brighter →
  offset self brighter ≤ 100 →
  0 ≤ m ≤ 255 →
  ∃ r r', _calculate_light_brightness self dimmer m = Returns r ∧
          _calculate_light_brightness self brighter m = Returns r' ∧
          r ≤ r'.
Proof.
  intros Hp Hmin Hmax Ho Hoo Ho' Hm.
  destruct (target_ascends_in_offset (is_relative self) m
              (offset self dimmer) (offset self brighter))
    as (t & t' & Ht & Ht' & Hle); [lia..|].
  rewrite (calculate_on_range self dimmer m t),
    (calculate_on_range self brighter m t')
    by (done || unfold percentages; by rewrite Hmin, Hmax).
  rewrite Hmin, Hmax.
  eexists _, _. split; [reflexivity|]. split; [reflexivity|]. lia.
Qed.

Lemma brightness_ordered_by_offset_witness :
  ∃ r r', _calculate_light_brightness (two_members OFFSET_TYPE_RELATIVE)
            "light.a" 100 = Returns r ∧
          _calculate_light_brightness (two_members OFFSET_TYPE_RELATIVE)
            "light.b" 100 = Returns r' ∧
          r ≤ r'.
Proof.
  apply (brightness_ordered_by_offset (two_members OFFSET_TYPE_RELATIVE)
           "light.a" "light.b" 100);
    first [reflexivity | lia | bounds_by_evaluation].
Defined.

(** X5. In relative mode a member with offset 0 follows the master brightness
    exactly, up to its bounds (in absolute mode it can fall one short of
    it). *)
Theorem relative_zero_offset_keeps_master (self : OffsetLightGroup)
    (entity_id : string) (m : Z) :
  _offset_type self = OFFSET_TYPE_RELATIVE →
  offset self entity_id = 0 →
  percentages self entity_id →
  0 ≤ m ≤ 255 →
  _calculate_light_brightness self entity_id m
  = Returns (Z.max (min_pct self entity_id * 255 / 100)
               (Z.min (max_pct self entity_id * 255 / 100) m)).
Proof.
  intros Hmode Hzero Hp Hm.
  apply calculate_on_range; [done|].
  unfold target, is_relative. rewrite bool_decide_eq_true_2 by done.
  rewrite Hzero. by apply relative_target_zero.
Qed.

Lemma relative_zero_offset_keeps_master_witness :
  _calculate_light_brightness (two_members OFFSET_TYPE_RELATIVE) "light.zz" 15
  = Returns (Z.max (1 * 255 / 100) (Z.min (100 * 255 / 100) 15)).
Proof.
  apply (relative_zero_offset_keeps_master (two_members OFFSET_TYPE_RELATIVE)
           "light.zz" 15);
    first [reflexivity | lia | bounds_by_evaluation].
Defined.

End MappingOrder.

(** ** More on turn-on, turn-off and the listener *)
Section ControllerRuns.

Import Run Trace.

Lemma fan_out_succeeds (hass : host) (kwargs : Kwargs) (members : list string) :
  ∀ w,
  (∀ h, hass h = None) →
  (∀ entity_id, entity_id ∈ members →
     ∃ b, _calculate_light_brightness (self w) entity_id
            (_master_brightness (self w)) = Returns b) →
  (for_each members (turn_on_member hass kwargs) w).1 = Returns ().
Proof.
  induction members as [|entity_id rest IH]; intros w Hok Hcalc; [done|].
  simpl. unfold mbind, M_bind. rewrite turn_on_member_run.
  destruct (Hcalc entity_id) as [b Hb]; [by left|].
  rewrite Hb. cbv zeta. rewrite Hok. apply IH; [done|].
  intros e He. simpl. apply Hcalc. by right.
Qed.

(** X6. With a host whose calls succeed and a mapping that returns for the
    members at the master brightness in force (the supplied brightness, or
    else the stored one), turn-on returns, every member has got its command
    in configuration order, the group is on, and its [brightness] property
    shows that master brightness. *)
Theorem turn_on_serves_every_member (hass : host) (kwargs : Kwargs)
    (w : World) :
  let master := default (_master_brightness (self w)) (kw_brightness kwargs) in
  (∀ h, hass h = None) →
  (∀ entity_id, entity_id ∈ entity_ids (self w) →
     ∃ b, _calculate_light_brightness (self w) entity_id master = Returns b) →
  let run := async_turn_on hass kwargs w in
  run.1 = Returns () ∧
  _is_on (self run.2) = true ∧
  _master_brightness (self run.2) = master ∧
  brightness (self run.2) = Some master ∧
  Forall2 (command_from_master kwargs (self w) master) (entity_ids (self w))
    (service_calls (added w run.2)).
Proof.
  intros master Hok Hcalc run.
  destruct (taken_in_frame kwargs (self w)) as (Hc & Ht & Hm & _).
  assert (Hret : run.1 = Returns ()).
  { subst run. rewrite async_turn_on_unfold. cbv zeta.
    pose proof (fan_out_succeeds hass kwargs (entity_ids (taken_in kwargs (self w)))
                  {| self := taken_in kwargs (self w);
                     history := history w ++ [GuardAssigned true] |} Hok) as Hloop.
    destruct (for_each _ _ _) as [r1 w2]. simpl in Hloop.
    rewrite Hloop.
    - by rewrite Hok.
    - intros e He. unfold entity_ids in He. rewrite Hc in He.
      destruct (Hcalc e He) as [b Hb]. exists b. rewrite Hm, <- Hb.
      by apply calculate_same_config. }
  destruct run as [r w'] eqn:Hrun. simpl in Hret. subst r.
  apply async_turn_on_run in Hrun
    as (calls & completed & Hself & Hh & Hall & Hlen & Hdone).
  rewrite (Hdone eq_refl) in *. specialize (Hlen eq_refl).
  simpl. rewrite Hself. unfold brightness. simpl.
  split; [done|]. split; [done|]. split; [by rewrite Hm|].
  split; [by rewrite Hm|].
  unfold added. rewrite Hh, drop_app_length. simpl. rewrite !service_calls_app.
  simpl. rewrite app_nil_r.
  pose proof (member_command_is_call _ _ _ _ _ Hall) as [-> _].
  rewrite Hlen, firstn_all in Hall.
  unfold entity_ids in *. rewrite Hc in Hall. rewrite Hm in Hall.
  eapply Forall2_impl; [exact Hall|].
  intros e call Hcall. apply member_command_contents.
  destruct Hcall as (b & Hb & ->). exists b. split; [|done].
  rewrite <- Hb. apply calculate_same_config; congruence.
Qed.

Lemma turn_on_serves_every_member_witness :
  let kwargs := {| kw_brightness := Some 200; kw := ∅ |} in
  let run := async_turn_on obliging kwargs
               {| self := pair_of_lights; history := [] |} in
  run.1 = Returns () ∧
  _is_on (self run.2) = true ∧
  _master_brightness (self run.2) = 200 ∧
  brightness (self run.2) = Some 200 ∧
  Forall2 (command_from_master kwargs pair_of_lights 200) ["light.a"; "light.b"]
    (service_calls (added {| self := pair_of_lights; history := [] |} run.2)).
Proof.
  apply (turn_on_serves_every_member obliging
           {| kw_brightness := Some 200; kw := ∅ |}
           {| self := pair_of_lights; history := [] |}); [done|].
  intros entity_id Hin.
  repeat (apply elem_of_cons in Hin as [->|Hin]; [by eexists; vm_compute|]).
  by apply elem_of_nil in Hin.
Defined.

(** X7. A turn-on that publishes no state has raised: it leaves the group's
    on/off state as it was (stale when members were already switched), but
    the supplied brightness and colour mode have been stored all the
    same. *)
Theorem turn_on_unpublished_keeps_on_off (hass : host) (kwargs : Kwargs)
    (w : World) :
  let run := async_turn_on hass kwargs w in
  existsb is_publication (added w run.2) = false →
  (∃ e, run.1 = Raises e) ∧
  _is_on (self run.2) = _is_on (self w) ∧
  _master_brightness (self run.2)
  = default (_master_brightness (self w)) (kw_brightness kwargs) ∧
  _color_mode (self run.2)
  = _color_mode (_store_color_from_kwargs kwargs (self w)).
Proof.
  intros run Hnone.
  destruct (async_turn_on_color hass kwargs w) as [Hcolor _].
  fold run in Hcolor. split; [|split; [|split; [|exact Hcolor]]];
    destruct run as [r w'] eqn:Hrun;
    apply async_turn_on_run in Hrun
      as (calls & completed & Hself & Hh & Hall & _ & Hdone);
    simpl in *;
    (assert (completed = false) as ->;
     [ destruct completed; [|done]; exfalso;
       unfold added in Hnone; rewrite Hh, drop_app_length in Hnone;
       simpl in Hnone; rewrite existsb_app in Hnone; simpl in Hnone;
       by rewrite orb_true_r in Hnone |]).
  - destruct r as [[]|e]; [by specialize (Hdone eq_refl) | by exists e].
  - rewrite Hself. simpl.
    destruct (store_color_frame kwargs
                (match kw_brightness kwargs with
                 | Some b => set_master_brightness b (set_applying_state true (self w))
                 | None => set_applying_state true (self w)
                 end)) as (_ & _ & _ & Hon & _).
    unfold taken_in. rewrite Hon. by destruct (kw_brightness kwargs).
  - rewrite Hself. simpl. apply taken_in_frame.
Qed.

Lemma turn_on_unpublished_keeps_on_off_witness :
  let kwargs := {| kw_brightness := Some 200; kw := ∅ |} in
  let w := {| self := pair_of_lights; history := [] |} in
  let run := async_turn_on (failing_at 3) kwargs w in
  existsb is_publication (added w run.2) = false ∧
  (∃ e, run.1 = Raises e) ∧
  _is_on (self run.2) = _is_on (self w) ∧
  _master_brightness (self run.2)
  = default (_master_brightness (self w)) (kw_brightness kwargs) ∧
  _color_mode (self run.2)
  = _color_mode (_store_color_from_kwargs kwargs (self w)).
Proof.
  intros kwargs w run.
  assert (H : existsb is_publication (added w run.2) = false)
    by (vm_compute; reflexivity).
  split; [exact H|].
  exact (turn_on_unpublished_keeps_on_off (failing_at 3) kwargs w H).
Defined.

(** X8. Turn-off dispatches exactly one service call, whatever the host
    answers: [light.turn_off] for the list of all members in configuration
    order, with the transition when one was supplied and nothing else (no
    brightness, no colour); the group is marked off exactly when that call
    succeeds. *)
Theorem turn_off_dispatches_once (hass : host) (kwargs : Kwargs) (w : World) :
  let run := async_turn_off hass kwargs w in
  ∃ data,
    service_calls (added w run.2) = [ServiceCall "light" SERVICE_TURN_OFF data] ∧
    data !! ATTR_ENTITY_ID = Some (PyList (PyStr <$> entity_ids (self w))) ∧
    data !! ATTR_TRANSITION = kw kwargs !! ATTR_TRANSITION ∧
    (∀ key, key ≠ ATTR_ENTITY_ID → key ≠ ATTR_TRANSITION → data !! key = None) ∧
    _is_on (self run.2)
    = match hass (history w ++ [GuardAssigned true;
                                ServiceCall "light" SERVICE_TURN_OFF data]) with
      | None => false
      | Some _ => _is_on (self w)
      end.
Proof.
  intros run. subst run. rewrite async_turn_off_unfold. cbv zeta.
  set (data := turn_off_service_data kwargs (entity_ids (self w))).
  exists data.
  replace ((history w ++ [GuardAssigned true])
           ++ [turned_off_data kwargs (set_applying_state true (self w))])
    with (history w ++ [GuardAssigned true;
                        ServiceCall "light" SERVICE_TURN_OFF data])
    by (by rewrite <- app_assoc).
  assert (Hdata : data !! ATTR_ENTITY_ID
                  = Some (PyList (PyStr <$> entity_ids (self w))) ∧
                  data !! ATTR_TRANSITION = kw kwargs !! ATTR_TRANSITION ∧
                  ∀ key, key ≠ ATTR_ENTITY_ID → key ≠ ATTR_TRANSITION →
                         data !! key = None).
  { subst data. unfold turn_off_service_data.
    destruct (kw kwargs !! ATTR_TRANSITION); repeat split;
      try (intros key H1 H2); by simplify_map_eq. }
  destruct Hdata as (H1 & H2 & H3).
  split; [|split; [done|split; [done|split; [done|]]]].
  - unfold added.
    destruct (hass (history w ++ _)); simpl;
      rewrite <- ?app_assoc; by rewrite drop_app_length.
  - by destruct (hass (history w ++ _)).
Qed.


End ControllerRuns.

(** ** More on resynchronization, and the restart *)
Section Restart.

Import Observed Trace Lifecycle.

#[local] Set Warnings "-clear-no-such-hyp".

Variable states : gmap string State.

Lemma filter_first_on (before after : list string) (first : string) :
  (∀ e, e ∈ before → reports_on states e = false) →
  reports_on states first = true →
  List.filter (reports_on states) (before ++ first :: after)
  = first :: List.filter (reports_on states) after.
Proof.
  intros Hbefore Hfirst. rewrite List.filter_app. simpl. rewrite Hfirst.
  replace (List.filter (reports_on states) before) with (@nil string); [done|].
  symmetry. induction before as [|e before IH]; [done|]. simpl.
  rewrite (Hbefore e) by by left. apply IH. intros e' He'. apply Hbefore. by right.
Qed.

(** X10. A pass copies the colour mode and the six colour payloads from the
    first member, in configuration order, that reports on, whatever the
    members after it report; an attribute that member lacks becomes
    [None] on the group, and a colour mode that is no member of the enum
    becomes [None] too. *)
Theorem resync_copies_first_member_on (self : OffsetLightGroup)
    (before after : list string) (first : string) (st : State) :
  entity_ids self = before ++ first :: after →
  (∀ e, e ∈ before → reports_on states e = false) →
  states !! first = Some st →
  state st = STATE_ON →
  let g := _update_state_from_members states self in
  let a := attributes st in
  _is_on g = true ∧
  _color_mode g = attr_color_mode a ≫= ColorMode_of_value ∧
  _hs_color g = default PyNone (attr_hs_color a) ∧
  _color_temp g = default PyNone (attr_color_temp a) ∧
  _rgb_color g = default PyNone (attr_rgb_color a) ∧
  _rgbw_color g = default PyNone (attr_rgbw_color a) ∧
  _rgbww_color g = default PyNone (attr_rgbww_color a) ∧
  _xy_color g = default PyNone (attr_xy_color a).
Proof.
  intros Hids Hbefore Hst Hon g a. subst g.
  assert (Hfirst : reports_on states first = true)
    by (unfold reports_on; rewrite Hst; by apply bool_decide_eq_true).
  unfold _update_state_from_members.
  destruct (resync_scan states self) as (Hscan & _ & _). cbv zeta in Hscan.
  rewrite Hscan, Hids, (filter_first_on before after first) by done.
  rewrite Hst. simpl. repeat split.
  unfold a. destruct (attr_color_mode (attributes st)) as [cm|]; [|done].
  simpl. by destruct (decide (cm = "")) as [->|].
Qed.

Lemma resync_entity_ids (self : OffsetLightGroup) :
  entity_ids (_update_state_from_members states self) = entity_ids self.
Proof.
  unfold _update_state_from_members.
  generalize (foldl (scan_member states) scan_start (entity_ids self)).
  intros scan. cbv zeta.
  destruct (on_states scan) as [|first rest]; [reflexivity|].
  destruct (states !! first); reflexivity.
Qed.

(** The assignments of a pass after its loop, with what they assign left
    open. *)
Lemma pass_twice (on : bool) (modes : gset ColorMode) (f : N)
    (first_on : option State) (self : OffsetLightGroup) :
  let pass g :=
    let g := set_supported_features f
               (set_supported_color_modes modes (set_is_on on g)) in
    match first_on with Some st => copy_color_from st g | None => g end in
  pass (pass self) = pass self.
Proof.
  destruct self, first_on as [[s a]|];
    cbv -[default ColorMode_of_value decide]; reflexivity.
Qed.

(** X11. A pass is idempotent: run again on the same observations it changes
    nothing, so a burst of notifications for one change settles after the
    first. *)
Theorem resync_twice_is_once (self : OffsetLightGroup) :
  _update_state_from_members states (_update_state_from_members states self)
  = _update_state_from_members states self.
Proof.
  unfold _update_state_from_members at 1.
  rewrite resync_entity_ids.
  unfold _update_state_from_members.
  generalize (foldl (scan_member states) scan_start (entity_ids self)).
  intros scan. cbv zeta.
  destruct (on_states scan) as [|first rest].
  - exact (pass_twice _ _ _ None self).
  - destruct (states !! first) as [st|].
    + exact (pass_twice _ _ _ (Some st) self).
    + exact (pass_twice _ _ _ None self).
Qed.

Lemma restore_then_pass (on on' : bool) (modes : gset ColorMode) (f : N)
    (first_on : option State) (b : option Z) (self : OffsetLightGroup) :
  let pass g :=
    let g := set_supported_features f
               (set_supported_color_modes modes (set_is_on on g)) in
    match first_on with Some st => copy_color_from st g | None => g end in
  let stored g :=
    match b with Some b => set_master_brightness b g | None => g end in
  pass (stored (set_is_on on' self)) = pass (stored self).
Proof.
  destruct self, b, first_on as [[s a]|];
    cbv -[default ColorMode_of_value decide]; reflexivity.
Qed.

Lemma added_to_hass_pass (last : option LastState) (self : OffsetLightGroup) :
  async_added_to_hass last states self
  = _update_state_from_members states
      (match last ≫= restored_brightness with
       | Some b => set_master_brightness b self
       | None => self
       end).
Proof.
  unfold async_added_to_hass. destruct last as [last|]; [|done]. simpl.
  unfold _update_state_from_members.
  replace (entity_ids
             (match restored_brightness last with
              | Some brightness =>
                  set_master_brightness brightness
                    (set_is_on (bool_decide (last_state last = STATE_ON)) self)
              | None => set_is_on (bool_decide (last_state last = STATE_ON)) self
              end)) with (entity_ids self)
    by (by destruct (restored_brightness last)).
  replace (entity_ids
             (match restored_brightness last with
              | Some b => set_master_brightness b self
              | None => self
              end)) with (entity_ids self)
    by (by destruct (restored_brightness last)).
  generalize (foldl (scan_member states) scan_start (entity_ids self)).
  intros scan. cbv zeta.
  destruct (on_states scan) as [|first rest].
  - exact (restore_then_pass _ _ _ _ None (restored_brightness last) self).
  - destruct (states !! first) as [st|].
    + exact (restore_then_pass _ _ _ _ (Some st) (restored_brightness last) self).
    + exact (restore_then_pass _ _ _ _ None (restored_brightness last) self).
Qed.

Lemma added_to_hass_brightness (last : option LastState)
    (self : OffsetLightGroup) :
  _master_brightness (async_added_to_hass last states self)
  = default (_master_brightness self) (last ≫= restored_brightness).
Proof.
  rewrite added_to_hass_pass.
  destruct (resync_refreshed states
              (match last ≫= restored_brightness with
               | Some b => set_master_brightness b self
               | None => self
               end)) as (_ & _ & _ & Hm).
  cbv zeta in Hm. rewrite Hm. by destruct (last ≫= restored_brightness).
Qed.

(** X12. When the entity is added, the on/off state it restores makes no
    difference: the initial pass overwrites it. The entity comes up on
    exactly when the pass finds a member on, with the restored brightness
    (the entity's own attribute first, then the standard one) or else the
    one it had, and two last states that restore the same brightness bring
    it up the same. *)
Theorem added_to_hass_on_off_from_members (last : option LastState)
    (self : OffsetLightGroup) :
  let g := async_added_to_hass last states self in
  _is_on g = existsb (reports_on states) (entity_ids self) ∧
  _master_brightness g
  = default (_master_brightness self) (last ≫= restored_brightness) ∧
  ∀ last' : option LastState,
    last' ≫= restored_brightness = last ≫= restored_brightness →
    async_added_to_hass last' states self = g.
Proof.
  cbv zeta. split; [|split; [apply added_to_hass_brightness|]].
  - rewrite added_to_hass_pass.
    destruct (resync_refreshed states
                (match last ≫= restored_brightness with
                 | Some b => set_master_brightness b self
                 | None => self
                 end)) as (Hon & _).
    cbv zeta in Hon. rewrite Hon.
    replace (entity_ids
               (match last ≫= restored_brightness with
                | Some b => set_master_brightness b self
                | None => self
                end)) with (entity_ids self)
      by (by destruct (last ≫= restored_brightness)).
    induction (entity_ids self) as [|e rest IH]; [done|].
    simpl. destruct (reports_on states e); [done|]. exact IH.
  - intros last' Hsame. rewrite !added_to_hass_pass. by rewrite Hsame.
Qed.

(** X13. The master brightness survives a restart whether the group was on or
    off when its state was kept: restoring from the attributes that
    [extra_state_attributes] publishes gives the master brightness back,
    whatever the standard brightness attribute says (it is [None] for a
    group that is off). *)
Theorem restart_keeps_master_brightness (published fresh : OffsetLightGroup)
    (last : LastState) :
  last_master_brightness last
  = kept_master_brightness (extra_state_attributes published) →
  _master_brightness (async_added_to_hass (Some last) states fresh)
  = _master_brightness published.
Proof.
  intros Hkept. rewrite added_to_hass_brightness.
  simpl. unfold restored_brightness. rewrite Hkept. reflexivity.
Qed.

End Restart.

Lemma resync_copies_first_member_on_witness :
  let states : gmap string State :=
    {["light.a" := Observed.off_light; "light.b" := Trace.warm_light]} in
  let g := _update_state_from_members states
             (Observed.lit Run.pair_of_lights) in
  _is_on g = true ∧ _color_mode g = Some COLOR_TEMP ∧
  _color_temp g = PyInt 370 ∧ _hs_color g = PyNone.
Proof.
  intros states0 g.
  destruct (resync_copies_first_member_on states0 (Observed.lit Run.pair_of_lights)
              ["light.a"] [] "light.b" Trace.warm_light)
    as (H1 & H2 & H3 & H4 & _); [done| |done|done|].
  - intros e He. apply elem_of_cons in He as [->|He]; [by vm_compute|].
    by apply elem_of_nil in He.
  - done.
Defined.

Lemma restart_keeps_master_brightness_witness :
  let off_at_200 := set_master_brightness 200 Run.pair_of_lights in
  _master_brightness
    (Lifecycle.async_added_to_hass
       (Some {| Lifecycle.last_state := "off";
                Lifecycle.last_master_brightness := Some 200;
                Lifecycle.last_brightness := None |})
       ∅ Run.pair_of_lights)
  = _master_brightness off_at_200.
Proof.
  intros off_at_200.
  apply (restart_keeps_master_brightness ∅ off_at_200 Run.pair_of_lights).
  reflexivity.
Defined.

(** ** Set-up of the entity and saving a changed selection *)
Section SetUp.

Import Lifecycle Options.

Lemma dict_get_set {V : Type} (key key' : string) (value : V)
    (d : list (string * V)) :
  dict_get key (dict_set key' value d)
  = if decide (key' = key) then Some value else dict_get key d.
Proof.
  induction d as [|[k v] d IH]; simpl.
  - done.
  - destruct (decide (k = key')) as [->|Hk]; simpl.
    + by destruct (decide (key' = key)).
    + rewrite IH. destruct (decide (k = key)) as [->|]; [|done].
      by rewrite decide_False by done.
Qed.

Lemma dict_set_fresh {V : Type} (key : string) (value : V)
    (d : list (string * V)) :
  key ∉ d.*1 → dict_set key value d = d ++ [(key, value)].
Proof.
  induction d as [|[k v] d IH]; simpl; [done|].
  intros [Hne Hnot]%not_elem_of_cons.
  rewrite decide_False by done. by rewrite IH.
Qed.

(** The loop of [async_setup_entry], from any dict built so far. *)
Lemma setup_fold_get (lights : list LightData) (entity_id : string) :
  ∀ entities_config,
  dict_get entity_id
    (foldl (λ entities_config light,
              dict_set (light_entity_id light) (member_config light)
                entities_config)
           entities_config lights)
  = match last (List.filter
                  (λ light, bool_decide (light_entity_id light = entity_id))
                  lights) with
    | Some light => Some (member_config light)
    | None => dict_get entity_id entities_config
    end.
Proof.
  induction lights as [|light lights IH]; intros entities_config; [done|].
  simpl. rewrite IH, dict_get_set.
  destruct (decide (light_entity_id light = entity_id)) as [Heq|Hne].
  - rewrite bool_decide_eq_true_2 by done.
    rewrite last_cons. by destruct (last _).
  - by rewrite bool_decide_eq_false_2 by done.
Qed.

Lemma setup_fold_keys (lights : list LightData) :
  ∀ entities_config : list (string * gmap string Z),
  NoDup (entities_config.*1 ++ (light_entity_id <$> lights)) →
  (foldl (λ entities_config light,
            dict_set (light_entity_id light) (member_config light)
              entities_config)
         entities_config lights).*1
  = entities_config.*1 ++ (light_entity_id <$> lights).
Proof.
  induction lights as [|light lights IH]; intros entities_config Hnodup.
  - simpl. by rewrite app_nil_r.
  - simpl in *. rewrite dict_set_fresh.
    + rewrite IH; rewrite fmap_app; simpl; rewrite <- app_assoc; done.
    + apply NoDup_app in Hnodup as (_ & Hdisjoint & _).
      intros Hin. apply (Hdisjoint _ Hin). by left.
Qed.

(** X14. When a config entry lists an entity twice, the set-up entity has one
    member for it, configured by the last of its entries; every setting an
    entry lacks takes its default (offset 0, bounds 1% and 100%), and an
    entity that is not listed has no member config. *)
Theorem setup_entry_last_entry_wins (entry_id name : string)
    (lights : list LightData) (offset_type : option string)
    (entity_id : string) :
  let g := async_setup_entry entry_id name (Some lights) offset_type in
  let entry :=
    last (List.filter
            (λ light, bool_decide (light_entity_id light = entity_id))
            lights) in
  dict_get entity_id (_entities_config g) = member_config <$> entry ∧
  Member.offset g entity_id
  = default 0 (entry ≫= λ light, light_settings light !! CONF_OFFSET) ∧
  Member.min_pct g entity_id
  = default 1 (entry ≫= λ light, light_settings light !! CONF_MIN_BRIGHTNESS) ∧
  Member.max_pct g entity_id
  = default 100 (entry ≫= λ light, light_settings light !! CONF_MAX_BRIGHTNESS).
Proof.
  cbv zeta.
  assert (Hget : dict_get entity_id
                   (_entities_config
                      (async_setup_entry entry_id name (Some lights) offset_type))
                 = member_config <$>
                   last (List.filter
                           (λ light, bool_decide (light_entity_id light = entity_id))
                           lights)).
  { unfold async_setup_entry. simpl. rewrite setup_fold_get.
    by destruct (last _). }
  split; [exact Hget|].
  unfold Member.offset, Member.min_pct, Member.max_pct, Member.config.
  rewrite Hget.
  destruct (last _) as [light|]; simpl; [|done].
  unfold member_config.
  destruct (light_settings light !! CONF_OFFSET),
    (light_settings light !! CONF_MIN_BRIGHTNESS),
    (light_settings light !! CONF_MAX_BRIGHTNESS); repeat split.
Qed.

(** X15. A config entry that lists every entity once sets up an entity whose
    members are the listed entities in the listed order; it starts off, at
    master brightness 128, in the entry's mode or else in absolute mode. *)
Theorem setup_entry_keeps_order (entry_id name : string)
    (lights : list LightData) (offset_type : option string) :
  NoDup (light_entity_id <$> lights) →
  let g := async_setup_entry entry_id name (Some lights) offset_type in
  entity_ids g = light_entity_id <$> lights ∧
  _offset_type g = default OFFSET_TYPE_ABSOLUTE offset_type ∧
  _is_on g = false ∧ brightness g = None ∧ _master_brightness g = 128.
Proof.
  intros Hnodup. cbv zeta. unfold async_setup_entry, entity_ids. simpl.
  rewrite setup_fold_keys by done. done.
Qed.

Lemma setup_entry_keeps_order_witness :
  let g := async_setup_entry "entry" "Living room" (Some sofa_and_desk) None in
  entity_ids g = ["light.sofa"; "light.desk"] ∧
  _offset_type g = "absolute" ∧
  _is_on g = false ∧ brightness g = None ∧ _master_brightness g = 128.
Proof.
  apply (setup_entry_keeps_order "entry" "Living room" sofa_and_desk None).
  apply (bool_decide_unpack _). vm_compute. exact I.
Defined.

(** The existing configs of [_async_save_light_changes]. *)
Lemma existing_fold_get (data_lights : list LightData) (entity_id : string) :
  ∀ existing,
  dict_get entity_id
    (foldl (λ existing light, dict_set (light_entity_id light) light existing)
           existing data_lights)
  = match last (List.filter
                  (λ light, bool_decide (light_entity_id light = entity_id))
                  data_lights) with
    | Some light => Some light
    | None => dict_get entity_id existing
    end.
Proof.
  induction data_lights as [|light lights IH]; intros existing; [done|].
  simpl. rewrite IH, dict_get_set.
  destruct (decide (light_entity_id light = entity_id)) as [Heq|Hne].
  - rewrite bool_decide_eq_true_2 by done.
    rewrite last_cons. by destruct (last _).
  - by rewrite bool_decide_eq_false_2 by done.
Qed.

Lemma last_filter_holds {A : Type} (p : A → bool) (l : list A) (x : A) :
  last (List.filter p l) = Some x → p x = true.
Proof.
  intros Hlast.
  assert (Hin : In x (List.filter p l)).
  { apply list_elem_of_In. apply last_Some in Hlast as [l' ->]. set_solver. }
  by apply List.filter_In in Hin as [_ ?].
Qed.

Lemma save_fold (data_lights : list LightData)
    (new_entity_configs : gmap string (gmap string Z))
    (selected : list string) :
  _async_save_light_changes data_lights selected new_entity_configs
  = stored_entry data_lights new_entity_configs <$> selected.
Proof.
  unfold _async_save_light_changes.
  set (step := λ (lights_config : list LightData) (entity_id : string), _).
  assert (Hfold : ∀ lights_config,
            foldl step lights_config selected
            = lights_config
              ++ (stored_entry data_lights new_entity_configs <$> selected)).
  { assert (Hstep : ∀ lights_config entity_id,
              step lights_config entity_id
              = lights_config
                ++ [stored_entry data_lights new_entity_configs entity_id]).
    { intros lights_config entity_id. unfold step, stored_entry.
      rewrite existing_fold_get. by destruct (last _). }
    clearbody step.
    induction selected as [|entity_id selected IH]; intros lights_config.
    - simpl. by rewrite app_nil_r.
    - cbn [foldl fmap list_fmap]. by rewrite IH, Hstep, <- app_assoc. }
  apply Hfold.
Qed.

Lemma stored_entry_id (data_lights : list LightData)
    (new_entity_configs : gmap string (gmap string Z)) (entity_id : string) :
  light_entity_id (stored_entry data_lights new_entity_configs entity_id)
  = entity_id.
Proof.
  unfold stored_entry. destruct (last _) as [light|] eqn:Hlast; [|done].
  apply last_filter_holds in Hlast. by apply bool_decide_eq_true in Hlast.
Qed.

(** X16. Saving a changed selection stores one light entry per selected entity,
    in the order of the selection: lights that are no longer selected are
    gone, and the entities listed are the selection itself. *)
Theorem save_stores_the_selection (data_lights : list LightData)
    (selected : list string)
    (new_entity_configs : gmap string (gmap string Z)) :
  light_entity_id <$>
    _async_save_light_changes data_lights selected new_entity_configs
  = selected.
Proof.
  rewrite save_fold.
  induction selected as [|entity_id selected IH]; [done|].
  cbn [fmap list_fmap]. rewrite stored_entry_id. f_equal. exact IH.
Qed.

Lemma last_stored (data_lights : list LightData)
    (new_entity_configs : gmap string (gmap string Z))
    (entity_id : string) (selected : list string) :
  last (List.filter
          (λ light, bool_decide (light_entity_id light = entity_id))
          (stored_entry data_lights new_entity_configs <$> selected))
  = if decide (entity_id ∈ selected)
    then Some (stored_entry data_lights new_entity_configs entity_id)
    else None.
Proof.
  induction selected as [|e selected IH].
  - destruct (decide (entity_id ∈ [])) as [Hin|]; [|done].
    by apply elem_of_nil in Hin.
  - cbn [fmap list_fmap List.filter]. rewrite stored_entry_id.
    destruct (decide (e = entity_id)) as [->|Hne].
    + rewrite bool_decide_eq_true_2 by done. rewrite last_cons, IH.
      destruct (decide (entity_id ∈ entity_id :: selected)) as [_|Hnot];
        [|exfalso; apply Hnot; by left].
      by destruct (decide (entity_id ∈ selected)).
    + rewrite bool_decide_eq_false_2 by done. rewrite IH.
      destruct (decide (entity_id ∈ selected)) as [Hin|Hnot],
        (decide (entity_id ∈ e :: selected)) as [Hin'|Hnot']; try done.
      * exfalso. apply Hnot'. by right.
      * exfalso. apply elem_of_cons in Hin' as [->|Hin']; done.
Qed.

Lemma last_listed (data_lights : list LightData) (entity_id : string) :
  entity_id ∈ light_entity_id <$> data_lights →
  ∃ light,
    last (List.filter
            (λ light, bool_decide (light_entity_id light = entity_id))
            data_lights) = Some light.
Proof.
  induction data_lights as [|l data_lights IH]; intros Hin.
  - by apply elem_of_nil in Hin.
  - cbn [fmap list_fmap List.filter] in *.
    destruct (decide (light_entity_id l = entity_id)) as [Heq|Hne].
    + rewrite bool_decide_eq_true_2 by done. rewrite last_cons.
      destruct (last _) as [light|]; eauto.
    + rewrite bool_decide_eq_false_2 by done. apply IH.
      apply elem_of_cons in Hin as [Heq|Hin]; [by symmetry in Heq | done].
Qed.

(** X17. A light that stays selected keeps its member config through a save and
    the set-up that follows it, whatever was entered for new lights: its
    offset and bounds are not reset. *)
Theorem save_keeps_member_config (entry_id name : string)
    (data_lights : list LightData) (selected : list string)
    (new_entity_configs : gmap string (gmap string Z))
    (offset_type : option string) (entity_id : string) :
  entity_id ∈ selected →
  entity_id ∈ light_entity_id <$> data_lights →
  let saved :=
    _async_save_light_changes data_lights selected new_entity_configs in
  dict_get entity_id
    (_entities_config
       (async_setup_entry entry_id name (Some saved) offset_type))
  = dict_get entity_id
      (_entities_config
         (async_setup_entry entry_id name (Some data_lights) offset_type)).
Proof.
  intros Hsel Hdata. cbv zeta. unfold async_setup_entry. simpl.
  rewrite !setup_fold_get, save_fold, last_stored.
  rewrite decide_True by done.
  destruct (last_listed data_lights entity_id Hdata) as [light Hlast].
  unfold stored_entry. by rewrite Hlast.
Qed.

Lemma last_unlisted (data_lights : list LightData) (entity_id : string) :
  entity_id ∉ light_entity_id <$> data_lights →
  List.filter (λ light, bool_decide (light_entity_id light = entity_id))
    data_lights = [].
Proof.
  induction data_lights as [|l data_lights IH]; intros Hnot; [done|].
  cbn [fmap list_fmap List.filter] in *.
  apply not_elem_of_cons in Hnot as [Hne Hnot].
  rewrite bool_decide_eq_false_2 by done. by apply IH.
Qed.

(** X18. After a save and the set-up that follows it, a light that was added to
    the selection is configured by what was entered for it, each missing
    setting taking its default, and a light that was removed from the
    selection has no member config left. *)
Theorem save_added_and_removed (entry_id name : string)
    (data_lights : list LightData) (selected : list string)
    (new_entity_configs : gmap string (gmap string Z))
    (offset_type : option string) (entity_id : string) :
  let current := light_entity_id <$> data_lights in
  let saved :=
    _async_save_light_changes data_lights selected new_entity_configs in
  let g := async_setup_entry entry_id name (Some saved) offset_type in
  let cfg := default ∅ (new_entity_configs !! entity_id) in
  (entity_id ∈ added_lights current selected →
   dict_get entity_id (_entities_config g)
   = Some {[CONF_OFFSET := default 0 (cfg !! CONF_OFFSET);
            CONF_MIN_BRIGHTNESS := default 1 (cfg !! CONF_MIN_BRIGHTNESS);
            CONF_MAX_BRIGHTNESS := default 100 (cfg !! CONF_MAX_BRIGHTNESS)]}) ∧
  (entity_id ∈ removed_lights current selected →
   dict_get entity_id (_entities_config g) = None).
Proof.
  cbv zeta. unfold async_setup_entry. simpl.
  rewrite setup_fold_get, save_fold, last_stored.
  split; intros Hin; apply list_elem_of_In, List.filter_In in Hin as [Hin Hnot];
    apply list_elem_of_In in Hin; apply negb_true_iff in Hnot;
    apply bool_decide_eq_false in Hnot.
  - rewrite decide_True by done. unfold stored_entry.
    rewrite last_unlisted by done. reflexivity.
  - by rewrite decide_False by done.
Qed.

Lemma save_keeps_member_config_witness :
  let saved :=
    _async_save_light_changes sofa_and_desk ["light.lamp"; "light.sofa"]
      {["light.lamp" := {[CONF_OFFSET := 40]}]} in
  dict_get "light.sofa"
    (_entities_config (async_setup_entry "entry" "Living room" (Some saved) None))
  = dict_get "light.sofa"
      (_entities_config
         (async_setup_entry "entry" "Living room" (Some sofa_and_desk) None)).
Proof.
  apply (save_keeps_member_config "entry" "Living room" sofa_and_desk
           ["light.lamp"; "light.sofa"]
           {["light.lamp" := {[CONF_OFFSET := 40]}]} None "light.sofa").
  - apply (bool_decide_unpack _). vm_compute. exact I.
  - apply (bool_decide_unpack _). vm_compute. exact I.
Defined.

End SetUp.

(** ** What the YAML validation accepts *)
Section Validation.

Import ConfigFlow Accepted.

Lemma validate_light_accepts (light : pyval) (index : nat) (light_config : pyval) :
  _validate_light_entry light index = Returns (inl light_config) ↔
  accepted_light light light_config.
Proof.
  unfold _validate_light_entry, accepted_light. split.
  - destruct light as [| | | | | | |entries]; try discriminate.
    destruct (dict_get "entity_id" entries) as [[| | | |entity_id| | |]|] eqn:Hid;
      try discriminate.
    destruct (String.prefix "light." entity_id) eqn:Hprefix; [|discriminate].
    intros [= <-]. by exists entries, entity_id.
  - intros (entries & entity_id & -> & -> & -> & ->). reflexivity.
Qed.

Lemma validate_lights_accepts (lights : list pyval) :
  ∀ (index : nat) (lights_config out : list pyval),
  validate_lights lights index lights_config = Returns (inl out) ↔
  ∃ configs, out = lights_config ++ configs ∧ Forall2 accepted_light lights configs.
Proof.
  induction lights as [|light lights IH]; intros index lights_config out.
  - simpl. split.
    + intros [= <-]. exists []. by rewrite app_nil_r.
    + intros (configs & -> & Hall). apply Forall2_nil_inv_l in Hall as ->.
      by rewrite app_nil_r.
  - simpl. split.
    + destruct (_validate_light_entry light index) as [[light_config|error]|e] eqn:Hlight;
        simpl; try discriminate.
      intros (configs & -> & Hall)%IH.
      exists (light_config :: configs). rewrite <- app_assoc. split; [done|].
      constructor; [|done]. by apply (validate_light_accepts light index).
    + intros (configs & -> & Hall).
      apply Forall2_cons_inv_l in Hall as (light_config & rest & Hlight & Hrest & ->).
      apply (validate_light_accepts light index) in Hlight. rewrite Hlight. simpl.
      apply IH. exists rest. by rewrite <- app_assoc.
Qed.

(** X19. [yaml_to_config] accepts a loaded document exactly when it is a mapping
    with a [name] and a [lights] list of at least two mappings whose
    [entity_id] is a string starting with [light.]; nothing else is looked
    at. The name, the offset type, the offsets and the bounds pass as they
    are, of whatever type and value; the missing ones take their
    defaults. *)
Theorem yaml_accepts_exactly (loaded : load_result) (config : pyval) :
  yaml_to_config_loaded loaded = Returns (inl config) ↔ accepted loaded config.
Proof.
  unfold yaml_to_config_loaded, accepted. split.
  - destruct loaded as [[| | | | | | |parsed]|problem]; try discriminate.
    destruct (dict_get "name" parsed) as [parsed_name|] eqn:Hname;
      [|discriminate].
    destruct (dict_get "lights" parsed) as [[| | | | | |parsed_lights|]|] eqn:Hlights;
      try discriminate.
    destruct (length parsed_lights <? 2)%nat eqn:Hlen; [discriminate|].
    apply Nat.ltb_ge in Hlen.
    destruct (validate_lights parsed_lights 0 []) as [[lights_config|error]|e] eqn:Hv;
      simpl; try discriminate.
    intros [= <-].
    apply validate_lights_accepts in Hv as (configs & -> & Hall).
    exists parsed, parsed_name, parsed_lights, configs. done.
  - intros (parsed & parsed_name & parsed_lights & lights_config
            & -> & -> & -> & Hlen & Hall & ->).
    apply Nat.ltb_ge in Hlen. rewrite Hlen.
    assert (Hv : validate_lights parsed_lights 0 [] = Returns (inl lights_config))
      by (apply validate_lights_accepts; by exists lights_config).
    by rewrite Hv.
Qed.

(** The validation does not look at the settings: a document with inverted
    bounds and a string for an offset is accepted as it stands, and so is
    a name that is no string. *)
Example yaml_accepts_odd_settings :
  yaml_to_config_loaded odd_document
  = Returns (inl (PyDict
      [("name", PyInt 7); ("offset_type", PyStr "absolute");
       ("lights",
        PyList
          [PyDict [("entity_id", PyStr "light.sofa"); ("offset", PyInt 0);
                   ("min_brightness", PyInt 1); ("max_brightness", PyInt 100)];
           PyDict [("entity_id", PyStr "light.desk"); ("offset", PyStr "much");
                   ("min_brightness", PyInt 90);
                   ("max_brightness", PyInt 10)]])])).
Proof. reflexivity. Qed.

End Validation.
